(** * Stationery manager backend (app.py): model and verified properties

    A shallow embedding of the Flask application [src/app.py].  The
    relational store is a record of three tables, every view function is a
    function from the committed store, the request body and the environment
    of that request to a response and the next committed store.  *)

From stdpp Require Import gmap strings list fin_maps pretty.
From Stdlib Require Import Ascii String ZArith.

Local Set Warnings "-register-all".
Local Open Scope string_scope.
Local Open Scope Z_scope.

(** ** JSON values, as [request.get_json()] yields them

    Numbers are kept to the integers: the application never computes with a
    number, it only tests Python truthiness.  Request bodies are JSON
    objects, so a body is a [gmap string json]. *)

Inductive json :=
  | JNull
  | JBool (b : bool)
  | JNum (n : Z)
  | JStr (s : string)
  | JArr (l : list json)
  | JObj (m : gmap string json).

Module Json.

(** Python truthiness of a decoded JSON value ([not v], [if v:], [all]). *)
Definition truthy (v : json) : bool :=
  match v with
  | JNull => false
  | JBool b => b
  | JNum n => negb (n =? 0)
  | JStr s => negb (String.eqb s "")
  | JArr l => match l with [] => false | _ :: _ => true end
  | JObj m => negb (bool_decide (m = ∅))
  end.

(** [data.get(k)]: a missing key reads as [None]. *)
Definition get (data : gmap string json) (k : string) : json :=
  default JNull (data !! k).

(** [data.get(k, d)]: only a missing key yields the default; a key that
    is present with value [null] yields [None]. *)
Definition get_default (data : gmap string json) (k : string) (d : json) : json :=
  default d (data !! k).

(** [stored == v] for a stored string and a decoded JSON value. *)
Definition eq_str (stored : string) (v : json) : bool :=
  match v with
  | JStr s => String.eqb stored s
  | _ => false
  end.

Definition of_option (o : option string) : json :=
  match o with
  | Some s => JStr s
  | None => JNull
  end.

(** [type(v).__name__] of the decoded value. *)
Definition type_name (v : json) : string :=
  match v with
  | JNull => "NoneType"
  | JBool _ => "bool"
  | JNum _ => "int"
  | JStr _ => "str"
  | JArr _ => "list"
  | JObj _ => "dict"
  end.

End Json.

(** ** Python exceptions: only [str(e)] is ever observed *)

Inductive exn :=
  | ValueError (msg : string)
  | TypeError (msg : string)
  | AttributeError (msg : string)
  | DatabaseError (msg : string).

Definition exn_str (e : exn) : string :=
  match e with
  | ValueError m | TypeError m | AttributeError m | DatabaseError m => m
  end.

(** Results of code that may raise. *)
Inductive result (A : Type) :=
  | Ok (a : A)
  | Raise (e : exn).
Arguments Ok {A} a.
Arguments Raise {A} e.

#[global] Instance result_ret : MRet result := λ A a, Ok a.

#[global] Instance result_bind : MBind result := λ A B k r,
  match r with
  | Ok a => k a
  | Raise e => Raise e
  end.

(** ** [datetime.date]

    [date.isoformat] and [date.fromisoformat].  Every CPython reads a
    string of the shape [YYYY-MM-DD] as that year, month and day and
    raises [ValueError] when they name no calendar date.  What else the
    function accepts (3.11 and later read further ISO 8601 forms) and the
    text of its [ValueError] belong to the runtime and are parameters. *)

Module Date.

Record t := mk { year : Z; month : Z; day : Z }.

Definition is_leap (y : Z) : bool :=
  (y mod 4 =? 0) && (negb (y mod 100 =? 0) || (y mod 400 =? 0)).

Definition days_in_month (y m : Z) : Z :=
  if m =? 2 then (if is_leap y then 29 else 28)
  else if bool_decide (m ∈ [4; 6; 9; 11]) then 30
  else 31.

(** The range check of the [date(year, month, day)] constructor. *)
Definition valid (d : t) : bool :=
  (1 <=? year d) && (year d <=? 9999) &&
  (1 <=? month d) && (month d <=? 12) &&
  (1 <=? day d) && (day d <=? days_in_month (year d) (month d)).

Definition digit (c : ascii) : option Z :=
  let n := Z.of_N (N_of_ascii c) in
  if (48 <=? n) && (n <=? 57) then Some (n - 48) else None.

Fixpoint number (acc : Z) (cs : list ascii) : option Z :=
  match cs with
  | [] => Some acc
  | c :: cs' =>
      match digit c with
      | Some d => number (10 * acc + d) cs'
      | None => None
      end
  end.

(** The fields of a string of the shape [YYYY-MM-DD]. *)
Definition shape (s : string) : option t :=
  match list_ascii_of_string s with
  | [y1; y2; y3; y4; "-"%char; m1; m2; "-"%char; d1; d2] =>
      match number 0 [y1; y2; y3; y4], number 0 [m1; m2], number 0 [d1; d2] with
      | Some y, Some m, Some d => Some (mk y m d)
      | _, _, _ => None
      end
  | _ => None
  end.

(** [date.fromisoformat(s)] for a [str]: [other] is what the runtime
    reads out of a string of another shape, [err] the text of the
    [ValueError] it raises.  A [date] always holds a calendar date. *)
Definition fromisoformat_with (other : string → option t) (err : string → string)
    (s : string) : result t :=
  match shape s with
  | Some r => if valid r then Ok r else Raise (ValueError (err s))
  | None =>
      match other s with
      | Some r => if valid r then Ok r else Raise (ValueError (err s))
      | None => Raise (ValueError (err s))
      end
  end.

(** The text CPython gives for a string it cannot split into fields. *)
Definition invalid_isoformat (s : string) : string :=
  "Invalid isoformat string: '" ++ s ++ "'".

(** The text CPython gives for a string it does not accept: the one of the
    [date] constructor when the fields are read and out of range. *)
Definition error_text (s : string) : string :=
  match shape s with
  | Some r =>
      if negb ((1 <=? year r) && (year r <=? 9999))
      then "year " ++ pretty (year r) ++ " is out of range"
      else if negb ((1 <=? month r) && (month r <=? 12))
      then "month must be in 1..12"
      else "day is out of range for month"
  | None => invalid_isoformat s
  end.

Definition digit_char (n : Z) : ascii := ascii_of_N (Z.to_N (48 + n mod 10)).

Definition pad2 (n : Z) : string :=
  String (digit_char (n / 10)) (String (digit_char n) "").

Definition pad4 (n : Z) : string :=
  String (digit_char (n / 1000)) (String (digit_char (n / 100)) (pad2 n)).

Definition isoformat (d : t) : string :=
  pad4 (year d) ++ "-" ++ pad2 (month d) ++ "-" ++ pad2 (day d).

End Date.

(** ** [werkzeug.security]

    [generate_password_hash] and [check_password_hash] on the stored format
    [method$salt$hash].  The key derivation itself ([_hash_internal]) and
    the method string written into fresh hashes are parameters:
    [hash_internal m salt p] is [None] where the library raises
    [ValueError] for an unknown method. *)

Module Werkzeug.

Definition SALT_CHARS : list ascii :=
  list_ascii_of_string
    "abcdefghijklmnopqrstuvwxyzABCDEFGHIJKLMNOPQRSTUVWXYZ0123456789".

(** [s.split(c, 1)] when [c] occurs in [s]: the text before the first
    [c] and the text after it. *)
Fixpoint partition (c : ascii) (s : string) : option (string * string) :=
  match s with
  | EmptyString => None
  | String a r =>
      if Ascii.eqb a c then Some (EmptyString, r)
      else match partition c r with
           | Some (x, y) => Some (String a x, y)
           | None => None
           end
  end.

(** [method, salt, hashval = pwhash.split("$", 2)]; [None] when the
    unpacking fails. *)
Definition split_hash (pwhash : string) : option (string * string * string) :=
  match partition "$" pwhash with
  | Some (m, rest) =>
      match partition "$" rest with
      | Some (salt, hashval) => Some (m, salt, hashval)
      | None => None
      end
  | None => None
  end.

(** [gen_salt(16)]: sixteen draws of [secrets.choice(SALT_CHARS)]; the
    environment supplies the draws. *)
Definition gen_salt (choice : nat → nat) : string :=
  string_of_list_ascii
    ((λ i, default "a"%char (SALT_CHARS !! (choice i `mod` 62)%nat)) <$> seq 0 16).

Section Kdf.

Variable method : string.
Variable hash_internal : string → string → string → option string.

Definition invalid_method (m : string) : exn :=
  ValueError ("Invalid hash method '" ++ m ++ "'.").

(** [password.encode()] on anything but a [str]. *)
Definition not_a_str (v : json) : exn :=
  AttributeError ("'" ++ Json.type_name v ++ "' object has no attribute 'encode'").

Definition check_password_hash (pwhash : string) (password : json) : result bool :=
  match split_hash pwhash with
  | None => Ok false
  | Some (m, salt, hashval) =>
      match password with
      | JStr p =>
          match hash_internal m salt p with
          | Some h => Ok (String.eqb h hashval)
          | None => Raise (invalid_method m)
          end
      | _ => Raise (not_a_str password)
      end
  end.

Definition generate_password_hash (choice : nat → nat) (password : json) : result string :=
  let salt := gen_salt choice in
  match password with
  | JStr p =>
      match hash_internal method salt p with
      | Some h => Ok (method ++ "$" ++ salt ++ "$" ++ h)
      | None => Raise (invalid_method method)
      end
  | _ => Raise (not_a_str password)
  end.

End Kdf.

End Werkzeug.

(** ** Database models

    A table is a finite map from the primary key to the other columns of
    the row; [user] has a surrogate integer key, so its rows are kept in
    insertion order and the key is the position. *)

Module User.
Record t := mk { username : string; password : string; role : string }.
End User.

Module Category.
Record t := mk { name : string }.

Definition to_dict (id : string) (self : t) : gmap string json :=
  list_to_map [("id", JStr id); ("name", JStr (name self))].
End Category.

Module Item.
Record t := mk {
  name : string;
  department : string;
  issued_date : Date.t;
  category_id : option string;
  dynamic_attributes : gmap string json
}.

Definition fixed_fields (id : string) (self : t) : gmap string json :=
  list_to_map
    [("id", JStr id);
     ("name", JStr (name self));
     ("department", JStr (department self));
     ("issuedDate", JStr (Date.isoformat (issued_date self)));
     ("categoryId", Json.of_option (category_id self))].

(** [data.update(self.dynamic_attributes)] keeps the value of the
    dynamic attribute on every key both maps have. *)
Definition to_dict (id : string) (self : t) : gmap string json :=
  let data := fixed_fields id self in
  if Json.truthy (JObj (dynamic_attributes self))
  then dynamic_attributes self ∪ data
  else data.
End Item.

Record Store := mkStore {
  users : list User.t;
  categories : gmap string Category.t;
  items : gmap string Item.t
}.

Definition empty_store : Store := mkStore [] ∅ ∅.

(** What a request cannot control: whether the storage layer accepts the
    commit (and the text of its error when it does not), the hex digits of
    [uuid.uuid4()], the draws of [secrets.choice], what the runtime's
    [date.fromisoformat] makes of a string that is not [YYYY-MM-DD] and the
    text of its [ValueError], and the text the driver and the engine store
    when a value that is neither a [str] nor [None] is bound to a [String]
    column ([None] when they refuse it).  A rejection by the database
    engine for a reason of its own (a dangling foreign key, an overlong
    string, a lost connection) is a commit that fails. *)
Record Env := mkEnv {
  commit_ok : bool;
  db_error : string;
  uuid_hex8 : string;
  choice : nat → nat;
  date_formats : string → option Date.t;
  date_error : string → string;
  bind_other : json → option string
}.

(** [date.fromisoformat(v)] on a decoded JSON value. *)
Definition fromisoformat (env : Env) (v : json) : result Date.t :=
  match v with
  | JStr s => Date.fromisoformat_with (date_formats env) (date_error env) s
  | _ => Raise (TypeError "fromisoformat: argument must be str")
  end.

Module Db.

(** [db.session.commit()]; on [Raise] the caller rolls back, which leaves
    the committed store as it was. *)
Definition commit (env : Env) (pending : Store) : result Store :=
  if commit_ok env then Ok pending else Raise (DatabaseError (db_error env)).

(** Binding a Python value to a [String] column that is [nullable=False]:
    a [str] is stored as it is, [None] violates the constraint, and any
    other value is stored as the text the driver and the engine make of it,
    if they accept it. *)
Definition bind_text (env : Env) (v : json) : result string :=
  match v with
  | JStr s => Ok s
  | JNull => Raise (DatabaseError "null value violates not-null constraint")
  | _ =>
      match bind_other env v with
      | Some s => Ok s
      | None => Raise (DatabaseError (db_error env))
      end
  end.

(** The same for a nullable [String] column. *)
Definition bind_opt_text (env : Env) (v : json) : result (option string) :=
  match v with
  | JStr s => Ok (Some s)
  | JNull => Ok None
  | _ =>
      match bind_other env v with
      | Some s => Ok (Some s)
      | None => Raise (DatabaseError (db_error env))
      end
  end.

(** The first row whose [username] is the string [v], with its position. *)
Definition user_by_username (us : list User.t) (v : json) : option (nat * User.t) :=
  list_find (λ u, Json.eq_str (User.username u) v = true) us.

(** [User.query.filter_by(username=v).first()] on PostgreSQL, the engine
    the models are written for ([JSONB]): [None] is compared with [IS NULL]
    and finds nothing, a [str] is looked up, and for a value of any other
    type the comparison with the [String] column is refused and the query
    raises. *)
Definition filter_by_username (us : list User.t) (v : json)
  : result (option (nat * User.t)) :=
  match v with
  | JStr _ | JNull => Ok (user_by_username us v)
  | _ => Raise (DatabaseError ("cannot compare a varchar column with a value of type "
                               ++ Json.type_name v))
  end.

(** [User.query.filter_by(role='admin').first()]. *)
Definition first_admin (us : list User.t) : option (nat * User.t) :=
  list_find (λ u, User.role u = "admin") us.

(** [db.session.add(user)] under [unique=True] on [username]. *)
Definition add_user (us : list User.t) (u : User.t) : result (list User.t) :=
  match list_find (λ u', User.username u' = User.username u) us with
  | Some _ => Raise (DatabaseError "duplicate key value violates unique constraint")
  | None => Ok (us ++ [u])%list
  end.

(** [db.session.add(category)]: primary key and [unique=True] on [name]. *)
Definition add_category (cs : gmap string Category.t) (id : string) (c : Category.t)
  : result (gmap string Category.t) :=
  if bool_decide (is_Some (cs !! id)) ||
     bool_decide (map_Exists (λ _ c', Category.name c' = Category.name c) cs)
  then Raise (DatabaseError "duplicate key value violates unique constraint")
  else Ok (<[id := c]> cs).

(** [db.session.add(item)]: primary key. *)
Definition add_item (its : gmap string Item.t) (id : string) (it : Item.t)
  : result (gmap string Item.t) :=
  match its !! id with
  | Some _ => Raise (DatabaseError "duplicate key value violates unique constraint")
  | None => Ok (<[id := it]> its)
  end.

(** [category.items.update({'category_id': None})]:
    [UPDATE item SET category_id = NULL WHERE category_id = :id]. *)
Definition detach (cid : string) (it : Item.t) : Item.t :=
  if bool_decide (Item.category_id it = Some cid)
  then Item.mk (Item.name it) (Item.department it) (Item.issued_date it)
               None (Item.dynamic_attributes it)
  else it.

End Db.

(** ** Responses *)

Inductive response :=
  | Json (status : Z) (body : json)      (* [return jsonify(body), status] *)
  | Abort (status : Z)                   (* [abort(status)], from [get_or_404] *)
  | Unhandled (e : exn).                 (* an exception no handler caught *)

Definition status_code (r : response) : Z :=
  match r with
  | Json st _ => st
  | Abort st => st
  | Unhandled _ => 500
  end.

Definition message (m : string) : json := JObj {[ "message" := JStr m ]}.

Inductive http_method := PUT | DELETE.

(** Which exit of [login] a request takes. *)
Inductive login_branch :=
  | NoUser
  | HashVerified (i : nat) (u : User.t)
  | PlaintextMatch (i : nat) (u : User.t)
  | Rejected
  | LookupRaised (e : exn).

(** ** The view functions of [app.py] *)

Definition core_fields : list string :=
  ["name"; "department"; "issuedDate"; "categoryId"].

(** [{k: v for k, v in data.items() if k not in core_fields}] *)
Definition dynamic_attrs (data : gmap string json) : gmap string json :=
  filter (λ kv, kv.1 ∉ core_fields) data.

Section App.

Variable method : string.
Variable hash_internal : string → string → string → option string.

Abbreviation check_password_hash := (Werkzeug.check_password_hash hash_internal).
Abbreviation generate_password_hash :=
  (Werkzeug.generate_password_hash method hash_internal).

Definition user_info (u : User.t) : json :=
  JObj (list_to_map [("username", JStr (User.username u));
                     ("role", JStr (User.role u))]).

Definition login_successful (u : User.t) : json :=
  JObj (list_to_map [("message", JStr "Login successful"); ("user", user_info u)]).

Definition invalid_login : json := message "Invalid username or password".

(** The tests of [login], in the order the function makes them. *)
Definition classify_login (s : Store) (data : gmap string json) : login_branch :=
  let username := Json.get data "username" in
  let password := Json.get data "password" in
  match Db.filter_by_username (users s) username with
  | Raise e => LookupRaised e
  | Ok None => NoUser
  | Ok (Some (i, user)) =>
      match check_password_hash (User.password user) password with
      | Ok true => HashVerified i user
      | Ok false | Raise _ =>
          if Json.eq_str (User.password user) password
          then PlaintextMatch i user
          else Rejected
      end
  end.

(** [user.password = generate_password_hash(password); db.session.commit()] *)
Definition upgrade_password (s : Store) (env : Env) (i : nat) (user : User.t)
    (password : json) : result Store :=
  hashed ← generate_password_hash (choice env) password;
  Db.commit env
    (mkStore (<[i := User.mk (User.username user) hashed (User.role user)]> (users s))
             (categories s) (items s)).

Definition login (s : Store) (env : Env) (data : gmap string json) : response * Store :=
  match classify_login s data with
  | NoUser => (Json 401 invalid_login, s)
  | HashVerified _ user => (Json 200 (login_successful user), s)
  | PlaintextMatch i user =>
      let s' :=
        match upgrade_password s env i user (Json.get data "password") with
        | Ok s' => s'
        | Raise _ => s
        end in
      (Json 200 (login_successful user), s')
  | Rejected => (Json 401 invalid_login, s)
  | LookupRaised e => (Unhandled e, s)
  end.

(** [role not in ('admin', 'buyer')] *)
Definition valid_role (role : json) : bool :=
  Json.eq_str "admin" role || Json.eq_str "buyer" role.

Definition register (s : Store) (env : Env) (data : gmap string json) : response * Store :=
  let username := Json.get data "username" in
  let password := Json.get data "password" in
  let role := Json.get_default data "role" (JStr "buyer") in
  if negb (Json.truthy username) || negb (Json.truthy password) || negb (valid_role role)
  then (Json 400 (message "username, password and valid role (admin|buyer) are required"), s)
  else
    match Db.filter_by_username (users s) username with
    | Raise e => (Unhandled e, s)
    | Ok (Some _) => (Json 409 (message "Username already exists"), s)
    | Ok None =>
        if Json.eq_str "admin" role && bool_decide (is_Some (Db.first_admin (users s)))
        then (Json 403 (message "An admin account already exists"), s)
        else
          match
            hashed ← generate_password_hash (choice env) password;
            u ← Db.bind_text env username;
            r ← Db.bind_text env role;
            let user := User.mk u hashed r in
            us ← Db.add_user (users s) user;
            s' ← Db.commit env (mkStore us (categories s) (items s));
            mret (user, s')
          with
          | Ok (user, s') =>
              (Json 201 (JObj (list_to_map [("message", JStr "User created");
                                            ("user", user_info user)])), s')
          | Raise e => (Json 500 (message ("Error creating user: " ++ exn_str e)), s)
          end
    end.

Definition admin_exists (s : Store) : response * Store :=
  (Json 200 (JObj {[ "exists" := JBool (bool_decide (is_Some (Db.first_admin (users s)))) ]}), s).

(** The start-up block under [if __name__ == '__main__']: any exception
    is printed and the server starts all the same. *)
Definition bootstrap (s : Store) (env : Env) : Store :=
  match Db.user_by_username (users s) (JStr "admin") with
  | Some _ => s
  | None =>
      match
        hashed ← generate_password_hash (choice env) (JStr "admin");
        us ← Db.add_user (users s) (User.mk "admin" hashed "admin");
        Db.commit env (mkStore us (categories s) (items s))
      with
      | Ok s' => s'
      | Raise _ => s
      end
  end.

Definition create_category (s : Store) (env : Env) (data : gmap string json)
  : response * Store :=
  let name := Json.get data "name" in
  if negb (Json.truthy name)
  then (Json 400 (message "Category name is required"), s)
  else
    let new_id := "cat-" ++ uuid_hex8 env in
    match
      n ← Db.bind_text env name;
      let new_category := Category.mk n in
      cs ← Db.add_category (categories s) new_id new_category;
      s' ← Db.commit env (mkStore (users s) cs (items s));
      mret (new_category, s')
    with
    | Ok (new_category, s') => (Json 201 (JObj (Category.to_dict new_id new_category)), s')
    | Raise _ => (Json 409 (message "Category name already exists or internal error."), s)
    end.

Definition category_detail (s : Store) (env : Env) (category_id : string)
  : response * Store :=
  match categories s !! category_id with
  | None => (Abort 404, s)
  | Some _ =>
      match
        Db.commit env (mkStore (users s)
                               (delete category_id (categories s))
                               (Db.detach category_id <$> items s))
      with
      | Ok s' => (Json 204 (message "Category deleted successfully"), s')
      | Raise e => (Json 500 (message ("Error deleting category: " ++ exn_str e)), s)
      end
  end.

Definition mandatory_message : string :=
  "Mandatory fields (name, department, issuedDate) are required.".

Definition create_item (s : Store) (env : Env) (data : gmap string json)
  : response * Store :=
  if negb (forallb Json.truthy [Json.get data "name"; Json.get data "department";
                                Json.get data "issuedDate"])
  then (Json 400 (message mandatory_message), s)
  else
    match
      let new_id := "item-" ++ uuid_hex8 env in
      let dyn := dynamic_attrs data in
      issued_date_obj ← fromisoformat env (Json.get data "issuedDate");
      n ← Db.bind_text env (Json.get data "name");
      d ← Db.bind_text env (Json.get data "department");
      c ← Db.bind_opt_text env (Json.get data "categoryId");
      let new_item := Item.mk n d issued_date_obj c dyn in
      its ← Db.add_item (items s) new_id new_item;
      s' ← Db.commit env (mkStore (users s) (categories s) its);
      mret (Item.to_dict new_id new_item, s')
    with
    | Ok (body, s') => (Json 201 (JObj body), s')
    | Raise e => (Json 500 (message ("Error creating item: " ++ exn_str e)), s)
    end.

(** The assignments of the [PUT] branch up to the commit; the parse of
    [issuedDate] is outside every [try]. *)
Definition put_issued_date (env : Env) (item : Item.t) (data : gmap string json)
  : result Date.t :=
  if Json.truthy (Json.get data "issuedDate")
  then fromisoformat env (Json.get data "issuedDate")
  else Ok (Item.issued_date item).

Definition item_detail (m : http_method) (s : Store) (env : Env) (item_id : string)
    (data : gmap string json) : response * Store :=
  match items s !! item_id with
  | None => (Abort 404, s)
  | Some item =>
      match m with
      | PUT =>
          let name := Json.get_default data "name" (JStr (Item.name item)) in
          let department :=
            Json.get_default data "department" (JStr (Item.department item)) in
          match put_issued_date env item data with
          | Raise e => (Unhandled e, s)
          | Ok issued_date =>
              let category_id :=
                Json.get_default data "categoryId" (Json.of_option (Item.category_id item)) in
              let dyn := dynamic_attrs data in
              match
                n ← Db.bind_text env name;
                d ← Db.bind_text env department;
                c ← Db.bind_opt_text env category_id;
                let item' := Item.mk n d issued_date c dyn in
                s' ← Db.commit env
                       (mkStore (users s) (categories s) (<[item_id := item']> (items s)));
                mret (Item.to_dict item_id item', s')
              with
              | Ok (body, s') => (Json 200 (JObj body), s')
              | Raise e => (Json 500 (message ("Error updating item: " ++ exn_str e)), s)
              end
          end
      | DELETE =>
          match
            Db.commit env (mkStore (users s) (categories s) (delete item_id (items s)))
          with
          | Ok s' => (Json 204 (message "Item deleted successfully"), s')
          | Raise e => (Json 500 (message ("Error deleting item: " ++ exn_str e)), s)
          end
      end
  end.

(** The requests of the HTTP surface, but for the two listings
    ([GET /api/categories], [GET /api/items]), which only read. *)
Inductive request :=
  | Login (data : gmap string json)
  | Register (data : gmap string json)
  | AdminExists
  | CreateCategory (data : gmap string json)
  | DeleteCategory (category_id : string)
  | CreateItem (data : gmap string json)
  | UpdateItem (item_id : string) (data : gmap string json)
  | DeleteItem (item_id : string).

Definition handle (s : Store) (env : Env) (r : request) : response * Store :=
  match r with
  | Login data => login s env data
  | Register data => register s env data
  | AdminExists => admin_exists s
  | CreateCategory data => create_category s env data
  | DeleteCategory cid => category_detail s env cid
  | CreateItem data => create_item s env data
  | UpdateItem iid data => item_detail PUT s env iid data
  | DeleteItem iid => item_detail DELETE s env iid ∅
  end.

(** The life of a deployment: the process starts (and runs the start-up
    block) or serves a request, each time in the environment of the moment;
    the store outlives the process. *)
Inductive event :=
  | Startup
  | Request (r : request).

Definition step (s : Store) (e : event * Env) : Store :=
  match e.1 with
  | Startup => bootstrap s e.2
  | Request r => (handle s e.2 r).2
  end.

Definition run (s : Store) (trace : list (event * Env)) : Store :=
  foldl step s trace.

End App.

(** The number of rows of [user] with [role = 'admin']. *)
Definition admin_count (s : Store) : nat :=
  List.length (filter (λ u, User.role u = "admin") (users s)).

(** ** Shapes the code maintains *)

(** An item row as the view functions write it: the date is one a
    [datetime.date] can hold, and no dynamic attribute is named like a core
    field. *)
Definition item_wf (it : Item.t) : Prop :=
  Date.valid (Item.issued_date it) = true ∧
  ∀ k, k ∈ core_fields → Item.dynamic_attributes it !! k = None.

Definition items_wf (s : Store) : Prop :=
  ∀ id it, items s !! id = Some it → item_wf it.

Definition usernames_unique (s : Store) : Prop :=
  NoDup (User.username <$> users s).

Definition category_names_unique (s : Store) : Prop :=
  ∀ i j c c', categories s !! i = Some c → categories s !! j = Some c' →
              Category.name c = Category.name c' → i = j.

(** ** Closed instances for the examples

    A stand-in for the key derivation: it knows the default method only and
    is injective in the password, as a key derivation is in practice. *)

Module Demo.

Definition method : string := "scrypt:32768:8:1".

Definition hash_internal (m salt p : string) : option string :=
  if String.eqb m method then Some (salt ++ ":" ++ p) else None.

(** A runtime that reads [YYYY-MM-DD] only and an engine that stores an
    integer as its decimal digits and refuses the other values. *)
Definition bind_other (v : json) : option string :=
  match v with
  | JNum n => Some (pretty n)
  | _ => None
  end.

Definition env_ok : Env :=
  mkEnv true "" "0a1b2c3d" (λ i, i) (λ _, None) Date.error_text bind_other.

Definition env_fail : Env :=
  mkEnv false "connection lost" "0a1b2c3d" (λ i, i) (λ _, None)
        Date.error_text bind_other.

Definition pen : Item.t :=
  Item.mk "Pen" "Sales" (Date.mk 2024 1 15) (Some "cat-1") {[ "color" := JStr "blue" ]}.

Definition stapler : Item.t :=
  Item.mk "Stapler" "Office" (Date.mk 2023 12 1) None ∅.

Definition stock : Store :=
  mkStore [] {[ "cat-1" := Category.mk "Writing" ]}
          (<["item-1" := pen]> {[ "item-2" := stapler ]}).

(** A store from before passwords were hashed. *)
Definition legacy : Store := mkStore [User.mk "bob" "pw" "buyer"] ∅ ∅.

Definition creds (username password : string) : gmap string json :=
  <["username" := JStr username]> {[ "password" := JStr password ]}.

Definition admin_creds (username password : string) : gmap string json :=
  <["role" := JStr "admin"]> (creds username password).

(** The hash [generate_password_hash] makes for "pw" under [env_ok]. *)
Definition pw_hash : string :=
  "scrypt:32768:8:1$abcdefghijklmnop$abcdefghijklmnop:pw".

End Demo.

(** * Properties *)

Example fromisoformat_ok (env : Env) :
  fromisoformat env (JStr "2024-01-15") = Ok (Date.mk 2024 1 15).
Proof. reflexivity. Qed.

Example fromisoformat_leap (env : Env) :
  fromisoformat env (JStr "2023-02-29")
  = Raise (ValueError (date_error env "2023-02-29")).
Proof. reflexivity. Qed.

Example isoformat_ok : Date.isoformat (Date.mk 2024 1 15) = "2024-01-15".
Proof. reflexivity. Qed.

(** ** Deleting a category *)

Lemma commit_cases (env : Env) (pending : Store) :
  (commit_ok env = true ∧ Db.commit env pending = Ok pending) ∨
  (commit_ok env = false ∧
   Db.commit env pending = Raise (DatabaseError (db_error env))).
Proof. unfold Db.commit. destruct (commit_ok env); auto. Qed.

Lemma detach_fields (cid : string) (it : Item.t) :
  Item.name (Db.detach cid it) = Item.name it ∧
  Item.department (Db.detach cid it) = Item.department it ∧
  Item.issued_date (Db.detach cid it) = Item.issued_date it ∧
  Item.dynamic_attributes (Db.detach cid it) = Item.dynamic_attributes it ∧
  Item.category_id (Db.detach cid it) =
    (if decide (Item.category_id it = Some cid) then None else Item.category_id it).
Proof.
  unfold Db.detach. destruct (decide (Item.category_id it = Some cid)) as [E|E].
  - rewrite bool_decide_eq_true_2 by done. done.
  - rewrite bool_decide_eq_false_2 by done. done.
Qed.

Lemma detach_clears (cid : string) (it : Item.t) :
  Item.category_id (Db.detach cid it) ≠ Some cid.
Proof.
  destruct (detach_fields cid it) as (_ & _ & _ & _ & ->).
  destruct (decide _); done.
Qed.

(** C1. [DELETE /api/categories/<id>] on a category that exists either
    commits everything or nothing.  When the commit goes through (204) the
    category row is gone, every item is still there under its id with the
    same name, department, issue date and dynamic attributes, the items that
    referenced the category have [category_id = None] and the others keep
    theirs, so no item references the deleted id; when the commit is refused
    (500) the store is exactly the one before. *)
Theorem category_delete_atomic (s : Store) (env : Env) (cid : string) :
  is_Some (categories s !! cid) →
  let out := category_detail s env cid in
  (commit_ok env = true ∧
   out.1 = Json 204 (message "Category deleted successfully") ∧
   categories out.2 = delete cid (categories s) ∧
   categories out.2 !! cid = None ∧
   users out.2 = users s ∧
   dom (items out.2) = dom (items s) ∧
   (∀ iid it, items s !! iid = Some it →
      ∃ it', items out.2 !! iid = Some it' ∧
        Item.name it' = Item.name it ∧
        Item.department it' = Item.department it ∧
        Item.issued_date it' = Item.issued_date it ∧
        Item.dynamic_attributes it' = Item.dynamic_attributes it ∧
        Item.category_id it' =
          (if decide (Item.category_id it = Some cid) then None
           else Item.category_id it)) ∧
   (∀ iid it', items out.2 !! iid = Some it' → Item.category_id it' ≠ Some cid))
  ∨
  (commit_ok env = false ∧ status_code out.1 = 500 ∧ out.2 = s).
Proof.
  intros [c Hc]. unfold category_detail. rewrite Hc.
  destruct (commit_cases env
    (mkStore (users s) (delete cid (categories s)) (Db.detach cid <$> items s)))
    as [[Hok ->]|[Hko ->]]; simpl.
  - left. split_and!; try done.
    + apply lookup_delete_eq.
    + apply dom_fmap_L.
    + intros iid it Hit. exists (Db.detach cid it). split.
      * by rewrite lookup_fmap, Hit.
      * apply detach_fields.
    + intros iid it'. rewrite lookup_fmap.
      destruct (items s !! iid) as [it|]; simpl; [|done].
      intros [= <-]. apply detach_clears.
  - right. done.
Qed.

Lemma category_delete_atomic_witness :
  let out := category_detail Demo.stock Demo.env_ok "cat-1" in
  out.1 = Json 204 (message "Category deleted successfully") ∧
  categories out.2 !! "cat-1" = None ∧
  (∀ iid it', items out.2 !! iid = Some it' → Item.category_id it' ≠ Some "cat-1").
Proof.
  destruct (category_delete_atomic Demo.stock Demo.env_ok "cat-1")
    as [(_ & H1 & _ & H2 & _ & _ & _ & H3)|(H & _)].
  - by eexists.
  - split_and!; assumption.
  - discriminate H.
Defined.

(** An unknown category id is a 404 and nothing is written. *)
Lemma category_delete_unknown (s : Store) (env : Env) (cid : string) :
  categories s !! cid = None → category_detail s env cid = (Abort 404, s).
Proof. intros H. unfold category_detail. by rewrite H. Qed.

(** ** Serialising an item *)

Lemma fixed_fields_lookup (id : string) (item : Item.t) :
  Item.fixed_fields id item !! "id" = Some (JStr id) ∧
  Item.fixed_fields id item !! "name" = Some (JStr (Item.name item)) ∧
  Item.fixed_fields id item !! "department" = Some (JStr (Item.department item)) ∧
  Item.fixed_fields id item !! "issuedDate" =
    Some (JStr (Date.isoformat (Item.issued_date item))) ∧
  Item.fixed_fields id item !! "categoryId" =
    Some (Json.of_option (Item.category_id item)).
Proof. unfold Item.fixed_fields. simpl. split_and!; by simplify_map_eq. Qed.

Lemma fixed_fields_dom (id : string) (item : Item.t) :
  dom (Item.fixed_fields id item) =
  ({[ "id"; "name"; "department"; "issuedDate"; "categoryId" ]} : gset string).
Proof.
  unfold Item.fixed_fields. rewrite dom_list_to_map_L. simpl. set_solver.
Qed.

Lemma truthy_obj (m : gmap string json) :
  Json.truthy (JObj m) = false ↔ m = ∅.
Proof.
  simpl. destruct (decide (m = ∅)) as [E|E].
  - rewrite bool_decide_eq_true_2 by done. done.
  - rewrite bool_decide_eq_false_2 by done. simpl. split; [done|]. intros; done.
Qed.

(** C4. [Item.to_dict] writes the five fixed fields [id], [name],
    [department], [issuedDate] (the ISO text of the date) and [categoryId]
    (null when there is none), and nothing else, and then overlays the
    dynamic attributes: on every key the serialised value is the dynamic
    attribute when there is one and the fixed field otherwise.  So a
    dynamic attribute named like a fixed field ([id], [categoryId], ...)
    replaces that field in the output, while the row itself, from which
    the fixed fields are read, is not touched. *)
Theorem to_dict_overlay (id : string) (item : Item.t) (k : string) :
  Item.to_dict id item !! k =
    match Item.dynamic_attributes item !! k with
    | Some v => Some v
    | None => Item.fixed_fields id item !! k
    end
  ∧ (∀ v, Item.dynamic_attributes item !! k = Some v →
          is_Some (Item.fixed_fields id item !! k) →
          Item.to_dict id item !! k = Some v)
  ∧ Item.fixed_fields id item !! "id" = Some (JStr id)
  ∧ Item.fixed_fields id item !! "name" = Some (JStr (Item.name item))
  ∧ Item.fixed_fields id item !! "department" = Some (JStr (Item.department item))
  ∧ Item.fixed_fields id item !! "issuedDate" =
      Some (JStr (Date.isoformat (Item.issued_date item)))
  ∧ Item.fixed_fields id item !! "categoryId" =
      Some (Json.of_option (Item.category_id item))
  ∧ dom (Item.fixed_fields id item) =
      ({[ "id"; "name"; "department"; "issuedDate"; "categoryId" ]} : gset string)
  ∧ (Item.dynamic_attributes item !! k = None →
     Item.to_dict id item !! k =
       if decide (k = "id") then Some (JStr id)
       else if decide (k = "name") then Some (JStr (Item.name item))
       else if decide (k = "department") then Some (JStr (Item.department item))
       else if decide (k = "issuedDate")
            then Some (JStr (Date.isoformat (Item.issued_date item)))
       else if decide (k = "categoryId")
            then Some (Json.of_option (Item.category_id item))
       else None).
Proof.
  assert (Item.to_dict id item !! k =
    match Item.dynamic_attributes item !! k with
    | Some v => Some v
    | None => Item.fixed_fields id item !! k
    end) as H.
  { unfold Item.to_dict.
    destruct (Json.truthy (JObj (Item.dynamic_attributes item))) eqn:E.
    - rewrite lookup_union.
      destruct (Item.dynamic_attributes item !! k), (Item.fixed_fields id item !! k);
        done.
    - apply truthy_obj in E. rewrite E, lookup_empty. done. }
  destruct (fixed_fields_lookup id item) as (H1 & H2 & H3 & H4 & H5).
  split_and!; try done.
  - intros v Hv _. by rewrite H, Hv.
  - intros Hnone. rewrite H, Hnone.
    repeat case_decide; subst; try done.
    apply not_elem_of_dom. rewrite fixed_fields_dom. set_solver.
Qed.

(** ** Updating an item *)

Lemma bind_text_str (env : Env) (str : string) : Db.bind_text env (JStr str) = Ok str.
Proof. reflexivity. Qed.

Lemma bind_opt_text_of_option (env : Env) (c : option string) :
  Db.bind_opt_text env (Json.of_option c) = Ok c.
Proof. by destruct c. Qed.

Lemma dynamic_attrs_lookup (data : gmap string json) (k : string) :
  dynamic_attrs data !! k = if decide (k ∈ core_fields) then None else data !! k.
Proof.
  unfold dynamic_attrs. destruct (decide (k ∈ core_fields)) as [E|E].
  - apply map_lookup_filter_None. right. intros v _ Hn. by apply Hn.
  - destruct (data !! k) as [v|] eqn:Hk.
    + by apply map_lookup_filter_Some.
    + apply map_lookup_filter_None. by left.
Qed.

(** Every [PUT] on an item that exists either commits the row built from the
    request or answers 500 and leaves the store alone. *)
Lemma put_cases (s : Store) (env : Env) (id : string) (data : gmap string json)
    (item : Item.t) :
  items s !! id = Some item →
  let out := item_detail PUT s env id data in
  (∃ n d c date,
      let item' := Item.mk n d date c (dynamic_attrs data) in
      Db.bind_text env (Json.get_default data "name" (JStr (Item.name item))) = Ok n ∧
      Db.bind_text env
        (Json.get_default data "department" (JStr (Item.department item))) = Ok d ∧
      Db.bind_opt_text env
        (Json.get_default data "categoryId" (Json.of_option (Item.category_id item)))
        = Ok c ∧
      put_issued_date env item data = Ok date ∧
      commit_ok env = true ∧
      out = (Json 200 (JObj (Item.to_dict id item')),
             mkStore (users s) (categories s) (<[id := item']> (items s))))
  ∨ (status_code out.1 = 500 ∧ out.2 = s).
Proof.
  intros Hit. unfold item_detail. rewrite Hit.
  destruct (put_issued_date env item data) as [date|e] eqn:Hd; [|by right].
  destruct (Db.bind_text env (Json.get_default data "name" _)) as [n|e] eqn:Hn;
    [|by right].
  destruct (Db.bind_text env (Json.get_default data "department" _)) as [d|e] eqn:Hdep;
    [|by right].
  destruct (Db.bind_opt_text env (Json.get_default data "categoryId" _)) as [c|e] eqn:Hc;
    [|by right].
  simpl.
  destruct (commit_cases env (mkStore (users s) (categories s)
      (<[id := Item.mk n d date c (dynamic_attrs data)]> (items s))))
    as [[Hok ->]|[Hko ->]]; simpl; [|by right].
  left. by exists n, d, c, date.
Qed.

(** A [PUT] on an item that exists answers 200 exactly when the date, if
    one is given, parses, the storage layer binds the three string columns
    and the commit is accepted. *)
Lemma put_200_iff (s : Store) (env : Env) (id : string) (data : gmap string json)
    (item : Item.t) :
  items s !! id = Some item →
  status_code (item_detail PUT s env id data).1 = 200 ↔
  (∃ n d c date,
      Db.bind_text env (Json.get_default data "name" (JStr (Item.name item))) = Ok n ∧
      Db.bind_text env
        (Json.get_default data "department" (JStr (Item.department item))) = Ok d ∧
      Db.bind_opt_text env
        (Json.get_default data "categoryId" (Json.of_option (Item.category_id item)))
        = Ok c ∧
      put_issued_date env item data = Ok date) ∧
  commit_ok env = true.
Proof.
  intros Hit. split.
  - intros Hst. destruct (put_cases s env id data item Hit)
      as [(n & d & c & date & Hn & Hd & Hc & Hdate & Hok & _)|[Hfail _]].
    + split; [|done]. by exists n, d, c, date.
    + rewrite Hst in Hfail. discriminate.
  - intros [(n & d & c & date & Hn & Hd & Hc & Hdate) Hok].
    unfold item_detail. rewrite Hit, Hdate, Hn, Hd, Hc.
    cbn [mbind result_bind]. unfold Db.commit. rewrite Hok. reflexivity.
Qed.

(** C3, as the code has it.  For a [PUT] on an item that exists: when it
    succeeds (200) the row stores as dynamic attributes exactly the entries
    of the request whose key is not a core field, whatever was stored
    before, and none at all when the request has no extra key; when it does
    not succeed the store is the one before, so the old attributes stay.
    It succeeds exactly when the date, if one is given, parses, the storage
    layer binds [name], [department] and [categoryId], and the commit is
    accepted. *)
Theorem put_replaces_dynamic_attributes (s : Store) (env : Env) (id : string)
    (data : gmap string json) (item : Item.t) :
  items s !! id = Some item →
  let out := item_detail PUT s env id data in
  (status_code out.1 = 200 →
   ∃ item', items out.2 !! id = Some item' ∧
     Item.dynamic_attributes item' = dynamic_attrs data ∧
     (∀ k, Item.dynamic_attributes item' !! k =
           if decide (k ∈ core_fields) then None else data !! k) ∧
     dom (Item.dynamic_attributes item') = dom data ∖ list_to_set core_fields ∧
     ((∀ k, is_Some (data !! k) → k ∈ core_fields) →
      Item.dynamic_attributes item' = ∅))
  ∧ (status_code out.1 ≠ 200 → out.2 = s)
  ∧ (status_code out.1 = 200 ↔
     (∃ n d c date,
        Db.bind_text env (Json.get_default data "name" (JStr (Item.name item))) = Ok n ∧
        Db.bind_text env
          (Json.get_default data "department" (JStr (Item.department item))) = Ok d ∧
        Db.bind_opt_text env
          (Json.get_default data "categoryId" (Json.of_option (Item.category_id item)))
          = Ok c ∧
        put_issued_date env item data = Ok date) ∧
     commit_ok env = true).
Proof.
  intros Hit out. split_and!.
  - intros Hst. destruct (put_cases s env id data item Hit)
      as [(n & d & c & date & _ & _ & _ & _ & _ & Hout)|[Hfail _]];
      [|fold out in Hfail; rewrite Hst in Hfail; discriminate].
    unfold out. rewrite Hout. simpl.
    eexists. split; [apply lookup_insert_eq|]. simpl. split_and!.
    + done.
    + apply dynamic_attrs_lookup.
    + apply set_eq. intros k. rewrite elem_of_difference, !elem_of_dom.
      rewrite dynamic_attrs_lookup. set_unfold.
      destruct (decide (k ∈ core_fields)) as [E|E]; set_unfold; split.
      * by intros [? ?].
      * by intros [_ ?].
      * done.
      * by intros [? _].
    + intros Hall. apply map_eq. intros k. rewrite lookup_empty, dynamic_attrs_lookup.
      destruct (decide (k ∈ core_fields)); [done|].
      destruct (data !! k) eqn:Hk; [|done].
      exfalso. naive_solver.
  - intros Hst. destruct (put_cases s env id data item Hit)
      as [(n & d & c & date & _ & _ & _ & _ & _ & Hout)|[_ H]]; [|done].
    unfold out in Hst. rewrite Hout in Hst. done.
  - by apply put_200_iff.
Qed.

Lemma put_replaces_dynamic_attributes_witness :
  let out := item_detail PUT Demo.stock Demo.env_ok "item-1"
               {[ "name" := JStr "Pen Deluxe" ]} in
  ∃ item', items out.2 !! "item-1" = Some item' ∧
           Item.dynamic_attributes item' = ∅.
Proof.
  destruct (put_replaces_dynamic_attributes Demo.stock Demo.env_ok "item-1"
              {[ "name" := JStr "Pen Deluxe" ]} Demo.pen)
    as (H & _ & _).
  - reflexivity.
  - destruct H as (item' & H1 & _ & _ & _ & H2); [reflexivity|].
    exists item'. split; [exact H1|]. apply H2.
    intros k. rewrite lookup_singleton_is_Some. intros <-. constructor.
Defined.

(** C3: the specification as worded fails on an update that does not
    succeed.  The request carries the extra key [size] and the database
    refuses the commit: the handler rolls back and answers 500, and the
    item still has its old dynamic attribute [color], not [size]. *)
Lemma put_failed_keeps_attributes :
  let data : gmap string json := {[ "size" := JStr "A4" ]} in
  let out := item_detail PUT Demo.stock Demo.env_fail "item-1" data in
  items Demo.stock !! "item-1" = Some Demo.pen ∧
  dynamic_attrs data = {[ "size" := JStr "A4" ]} ∧
  status_code out.1 = 500 ∧
  (∃ item', items out.2 !! "item-1" = Some item' ∧
            Item.dynamic_attributes item' = {[ "color" := JStr "blue" ]} ∧
            Item.dynamic_attributes item' ≠ dynamic_attrs data).
Proof.
  split_and!; try reflexivity.
  exists Demo.pen. split_and!; try reflexivity.
  intros Heq. apply (f_equal (λ m : gmap string json, m !! "color")) in Heq.
  vm_compute in Heq. discriminate.
Qed.

Lemma of_option_inj (a b : option string) :
  Json.of_option a = Json.of_option b → a = b.
Proof. destruct a, b; simpl; congruence. Qed.


Lemma get_default_present (data : gmap string json) (k : string) (d v : json) :
  data !! k = Some v → Json.get_default data k d = v.
Proof. intros H. unfold Json.get_default. by rewrite H. Qed.

Lemma get_absent_falsy (data : gmap string json) (k : string) :
  data !! k = None → Json.truthy (Json.get data k) = false.
Proof. intros H. unfold Json.get. by rewrite H. Qed.

Lemma shape_truthy (str : string) (d : Date.t) :
  Date.shape str = Some d → Json.truthy (JStr str) = true.
Proof. destruct str; [discriminate|done]. Qed.

(** A string of the shape [YYYY-MM-DD] is read as the date it spells, or
    refused. *)
Lemma fromisoformat_shape (env : Env) (str : string) (d x : Date.t) :
  Date.shape str = Some d → fromisoformat env (JStr str) = Ok x →
  x = d ∧ Date.valid d = true.
Proof.
  intros Hs. unfold fromisoformat, Date.fromisoformat_with. rewrite Hs.
  destruct (Date.valid d); [|discriminate]. by intros [= <-].
Qed.




Lemma dynamic_attrs_delete_core (data : gmap string json) (k : string) :
  k ∈ core_fields → dynamic_attrs (delete k data) = dynamic_attrs data.
Proof.
  intros Hk. apply map_eq. intros j. rewrite !dynamic_attrs_lookup.
  destruct (decide (j ∈ core_fields)) as [E|E]; [done|].
  apply lookup_delete_ne. by intros ->.
Qed.

(** C8, as the code has it.  A [PUT] on an item that exists whose
    [issuedDate] is truthy and is rejected by [date.fromisoformat] answers
    500 and leaves the store as it was; a string of the shape YYYY-MM-DD
    that spells no calendar date is always rejected.  An [issuedDate] that
    is empty or null is not parsed at all: the request is treated exactly
    as the same request without the key. *)
Theorem put_bad_issued_date (s : Store) (env : Env) (id : string)
    (data : gmap string json) (item : Item.t) :
  items s !! id = Some item →
  (Json.truthy (Json.get data "issuedDate") = true →
   ∀ e, fromisoformat env (Json.get data "issuedDate") = Raise e →
        status_code (item_detail PUT s env id data).1 = 500 ∧
        (item_detail PUT s env id data).2 = s)
  ∧ (Json.truthy (Json.get data "issuedDate") = false →
     item_detail PUT s env id data
     = item_detail PUT s env id (delete "issuedDate" data))
  ∧ (∀ str d, Json.get data "issuedDate" = JStr str →
              Date.shape str = Some d → Date.valid d = false →
              status_code (item_detail PUT s env id data).1 = 500 ∧
              (item_detail PUT s env id data).2 = s).
Proof.
  intros Hit. split_and!.
  - intros Ht e He. unfold item_detail. rewrite Hit. unfold put_issued_date.
    by rewrite Ht, He.
  - intros Hf. unfold item_detail. rewrite Hit. unfold put_issued_date.
    rewrite Hf.
    assert (Json.truthy (Json.get (delete "issuedDate" data) "issuedDate") = false)
      as ->.
    { unfold Json.get. by rewrite lookup_delete_eq. }
    rewrite (dynamic_attrs_delete_core data "issuedDate")
      by (unfold core_fields; set_solver).
    unfold Json.get_default. by rewrite !lookup_delete_ne.
  - intros str d Hi Hs Hv. unfold item_detail. rewrite Hit.
    unfold put_issued_date. rewrite Hi, (shape_truthy _ _ Hs). simpl.
    unfold Date.fromisoformat_with. by rewrite Hs, Hv.
Qed.

Lemma put_bad_issued_date_witness :
  status_code (item_detail PUT Demo.stock Demo.env_ok "item-1"
                 {[ "issuedDate" := JStr "tomorrow" ]}).1 = 500 ∧
  (item_detail PUT Demo.stock Demo.env_ok "item-1"
     {[ "issuedDate" := JStr "tomorrow" ]}).2 = Demo.stock.
Proof.
  destruct (put_bad_issued_date Demo.stock Demo.env_ok "item-1"
              {[ "issuedDate" := JStr "tomorrow" ]} Demo.pen) as [H _].
  - reflexivity.
  - apply (H eq_refl (ValueError (Date.invalid_isoformat "tomorrow"))). reflexivity.
Defined.

(** C8: the specification as worded fails twice.  A date that does not parse gives
    a 500, not a 400; and the empty string, which does not parse either, is
    not rejected at all. *)
Lemma put_bad_issued_date_not_400 :
  fromisoformat Demo.env_ok (JStr "tomorrow")
    = Raise (ValueError (Date.invalid_isoformat "tomorrow")) ∧
  status_code (item_detail PUT Demo.stock Demo.env_ok "item-1"
                 {[ "issuedDate" := JStr "tomorrow" ]}).1 = 500 ∧
  status_code (item_detail PUT Demo.stock Demo.env_ok "item-1"
                 {[ "issuedDate" := JStr "tomorrow" ]}).1 ≠ 400 ∧
  fromisoformat Demo.env_ok (JStr "") = Raise (ValueError (Date.invalid_isoformat "")) ∧
  status_code (item_detail PUT Demo.stock Demo.env_ok "item-1"
                 {[ "issuedDate" := JStr "" ]}).1 = 200.
Proof. split_and!; try reflexivity. vm_compute. discriminate. Qed.

(** ** Creating an item *)

(** C7, as the code has it.  [POST /api/items] answers 400 whenever
    [name], [department] or [issuedDate] is missing from the request (or is
    empty or null); when the three are there and [date.fromisoformat]
    rejects [issuedDate] the exception is caught by the handler and the
    answer is 500 with the exception's text, not 400.  In both cases the
    store is the one before, so no item is persisted.  A string of the
    shape YYYY-MM-DD that spells no calendar date is always rejected. *)
Theorem create_item_rejects (s : Store) (env : Env) (data : gmap string json) :
  let out := create_item s env data in
  ((data !! "name" = None ∨ data !! "department" = None ∨
    data !! "issuedDate" = None) →
   out = (Json 400 (message mandatory_message), s))
  ∧
  ((Json.truthy (Json.get data "name") = false ∨
    Json.truthy (Json.get data "department") = false ∨
    Json.truthy (Json.get data "issuedDate") = false) →
   out = (Json 400 (message mandatory_message), s))
  ∧
  (∀ e, Json.truthy (Json.get data "name") = true →
        Json.truthy (Json.get data "department") = true →
        Json.truthy (Json.get data "issuedDate") = true →
        fromisoformat env (Json.get data "issuedDate") = Raise e →
        out = (Json 500 (message ("Error creating item: " ++ exn_str e)), s))
  ∧
  (∀ str d, Json.truthy (Json.get data "name") = true →
            Json.truthy (Json.get data "department") = true →
            Json.get data "issuedDate" = JStr str →
            Date.shape str = Some d → Date.valid d = false →
            status_code out.1 = 500 ∧ out.2 = s).
Proof.
  assert ((Json.truthy (Json.get data "name") = false ∨
           Json.truthy (Json.get data "department") = false ∨
           Json.truthy (Json.get data "issuedDate") = false) →
          create_item s env data = (Json 400 (message mandatory_message), s)) as Hfalsy.
  { intros H. unfold create_item. simpl.
    destruct H as [ -> | [ -> | -> ] ]; simpl; rewrite ?andb_false_r; done. }
  split_and!.
  - intros H. apply Hfalsy.
    destruct H as [H|[H|H]]; apply get_absent_falsy in H; auto.
  - exact Hfalsy.
  - intros e Hn Hd Hi He. unfold create_item. simpl.
    rewrite Hn, Hd, Hi, He. done.
  - intros str d Hn Hd Hi Hs Hv. unfold create_item. simpl.
    rewrite Hn, Hd, Hi, (shape_truthy _ _ Hs). simpl.
    unfold Date.fromisoformat_with. by rewrite Hs, Hv.
Qed.

Lemma create_item_rejects_witness :
  create_item Demo.stock Demo.env_ok {[ "name" := JStr "Pen" ]}
  = (Json 400 (message mandatory_message), Demo.stock).
Proof.
  apply (create_item_rejects Demo.stock Demo.env_ok {[ "name" := JStr "Pen" ]}).
  right. left. reflexivity.
Defined.

(** C7: the specification as worded fails on the status.  With the three mandatory
    fields present and an [issuedDate] that is not an ISO date, the answer
    is 500, not 400 (and nothing is stored). *)
Lemma create_item_bad_date_is_500 :
  let data : gmap string json :=
    <["name" := JStr "Pen"]> (<["department" := JStr "Sales"]>
      {[ "issuedDate" := JStr "15/01/2024" ]}) in
  let out := create_item Demo.stock Demo.env_ok data in
  fromisoformat Demo.env_ok (JStr "15/01/2024")
    = Raise (ValueError (Date.invalid_isoformat "15/01/2024")) ∧
  out.1 = Json 500 (message "Error creating item: Invalid isoformat string: '15/01/2024'") ∧
  status_code out.1 ≠ 400 ∧
  out.2 = Demo.stock.
Proof. split_and!; try reflexivity. vm_compute. discriminate. Qed.

(** A well-formed request is stored under the generated id and comes back
    serialised; an [id] key in the request is a dynamic attribute, so it
    replaces the generated id in the answer but not in the table. *)
Lemma create_item_id_collision :
  let data : gmap string json :=
    <["name" := JStr "Pen"]> (<["department" := JStr "Sales"]>
      (<["issuedDate" := JStr "2024-01-15"]> {[ "id" := JStr "forged" ]})) in
  let out := create_item empty_store Demo.env_ok data in
  status_code out.1 = 201 ∧
  (∃ body, out.1 = Json 201 (JObj body) ∧ body !! "id" = Some (JStr "forged")) ∧
  is_Some (items out.2 !! "item-0a1b2c3d") ∧
  items out.2 !! "forged" = None.
Proof.
  split_and!; try reflexivity.
  - eexists. split; reflexivity.
  - by eexists.
Qed.

(** ** Password hashes *)

Lemma partition_app (c : ascii) (x y : string) :
  c ∉ list_ascii_of_string x →
  Werkzeug.partition c (x ++ String c y) = Some (x, y).
Proof.
  induction x as [|a x IH]; simpl; intros Hc.
  - by rewrite Ascii.eqb_refl.
  - destruct (Ascii.eqb a c) eqn:E.
    + apply Ascii.eqb_eq in E. subst a. exfalso. apply Hc. constructor.
    + rewrite IH; [done|]. intros Hx. apply Hc. by constructor.
Qed.

Lemma salt_chars_no_dollar : Forall (λ a, a ≠ "$"%char) Werkzeug.SALT_CHARS.
Proof. unfold Werkzeug.SALT_CHARS. simpl. repeat constructor; discriminate. Qed.

Lemma gen_salt_no_dollar (choice : nat → nat) :
  "$"%char ∉ list_ascii_of_string (Werkzeug.gen_salt choice).
Proof.
  unfold Werkzeug.gen_salt. rewrite list_ascii_of_string_of_list_ascii.
  intros Hin. apply list_elem_of_fmap in Hin as (i & Hi & _).
  destruct (Werkzeug.SALT_CHARS !! (choice i `mod` 62)%nat) as [a|] eqn:E;
    simpl in Hi; [|discriminate].
  apply list_elem_of_lookup_2 in E.
  pose proof salt_chars_no_dollar as HF. rewrite Forall_forall in HF.
  by apply (HF a).
Qed.

Section KdfProperties.

Variable method : string.
Variable hash_internal : string → string → string → option string.

Lemma split_hash_generated (choice : nat → nat) (h : string) :
  "$"%char ∉ list_ascii_of_string method →
  Werkzeug.split_hash (method ++ "$" ++ Werkzeug.gen_salt choice ++ "$" ++ h)
  = Some (method, Werkzeug.gen_salt choice, h).
Proof.
  intros Hm. unfold Werkzeug.split_hash.
  change ("$" ++ h) with (String "$" h).
  change ("$" ++ Werkzeug.gen_salt choice ++ String "$" h)
    with (String "$" (Werkzeug.gen_salt choice ++ String "$" h)).
  rewrite (partition_app _ _ _ Hm).
  by rewrite (partition_app _ _ _ (gen_salt_no_dollar choice)).
Qed.

(** The contract of the library: a hash made for a password verifies it. *)
Lemma check_generated (choice : nat → nat) (password : json) (pwhash : string) :
  "$"%char ∉ list_ascii_of_string method →
  Werkzeug.generate_password_hash method hash_internal choice password = Ok pwhash →
  Werkzeug.check_password_hash hash_internal pwhash password = Ok true.
Proof.
  intros Hm. unfold Werkzeug.generate_password_hash, Werkzeug.check_password_hash.
  destruct password as [| | |p| |]; try discriminate.
  destruct (hash_internal method (Werkzeug.gen_salt choice) p) as [h|] eqn:Hh;
    [|discriminate].
  intros [= <-]. rewrite (split_hash_generated _ _ Hm), Hh.
  by rewrite String.eqb_refl.
Qed.

Lemma generate_total (choice : nat → nat) (p : string) :
  (∀ salt q, is_Some (hash_internal method salt q)) →
  ∃ pwhash,
    Werkzeug.generate_password_hash method hash_internal choice (JStr p) = Ok pwhash.
Proof.
  intros Ht. unfold Werkzeug.generate_password_hash.
  destruct (Ht (Werkzeug.gen_salt choice) p) as [h ->]. by eexists.
Qed.

End KdfProperties.

Lemma eq_str_true (stored : string) (v : json) :
  Json.eq_str stored v = true ↔ v = JStr stored.
Proof.
  destruct v; simpl; try (split; [discriminate|congruence]).
  rewrite String.eqb_eq. split; congruence.
Qed.

Lemma eq_str_false (stored : string) (v : json) :
  Json.eq_str stored v = false ↔ v ≠ JStr stored.
Proof.
  rewrite <- eq_str_true. destruct (Json.eq_str stored v); split; congruence.
Qed.

(** ** Login *)


Lemma user_by_username_Some (us : list User.t) (v : json) (i : nat) (u : User.t) :
  Db.user_by_username us v = Some (i, u) →
  us !! i = Some u ∧ v = JStr (User.username u).
Proof.
  unfold Db.user_by_username. intros H. apply list_find_Some in H as (Hi & Hp & _).
  by apply eq_str_true in Hp.
Qed.



Lemma filter_by_username_Ok (us : list User.t) (v : json) (r : option (nat * User.t)) :
  Db.filter_by_username us v = Ok r → r = Db.user_by_username us v.
Proof. destruct v; simpl; congruence. Qed.

Lemma filter_by_username_truthy (us : list User.t) (v : json)
    (r : option (nat * User.t)) :
  Json.truthy v = true → Db.filter_by_username us v = Ok r →
  ∃ n, v = JStr n ∧ r = Db.user_by_username us (JStr n).
Proof.
  destruct v as [|b|z|str|l|m]; simpl; try discriminate.
  intros _ [= <-]. by exists str.
Qed.

Lemma valid_role_cases (v : json) :
  valid_role v = true → v = JStr "admin" ∨ v = JStr "buyer".
Proof.
  unfold valid_role. intros [H|H]%orb_true_iff; apply eq_str_true in H; auto.
Qed.

Section LoginProperties.

Variable method : string.
Variable hash_internal : string → string → string → option string.

Abbreviation login' := (login method hash_internal).
Abbreviation classify' := (classify_login hash_internal).

Lemma login_rejected (s : Store) (env : Env) (data : gmap string json) :
  classify' s data = Rejected →
  login' s env data = (Json 401 (message "Invalid username or password"), s).
Proof. intros H. unfold login. by rewrite H. Qed.



End LoginProperties.





(** ** The plaintext migration *)

Lemma user_by_username_insert (us : list User.t) (v : json) (i : nat) (u u' : User.t) :
  Db.user_by_username us v = Some (i, u) →
  User.username u' = User.username u →
  Db.user_by_username (<[i := u']> us) v = Some (i, u').
Proof.
  unfold Db.user_by_username. intros H Hname.
  apply list_find_Some in H as (Hi & Hp & Hlt).
  apply list_find_Some. split_and!.
  - apply list_lookup_insert_eq. by eapply lookup_lt_Some.
  - by rewrite Hname.
  - intros j y Hj Hji. rewrite list_lookup_insert_ne in Hj by lia.
    by eapply Hlt.
Qed.

Section Migration.

Variable method : string.
Variable hash_internal : string → string → string → option string.

Abbreviation login' := (login method hash_internal).
Abbreviation classify' := (classify_login hash_internal).

Lemma classify_plaintext (s : Store) (data : gmap string json) (i : nat) (u : User.t) :
  classify' s data = PlaintextMatch i u →
  Db.user_by_username (users s) (Json.get data "username") = Some (i, u) ∧
  Werkzeug.check_password_hash hash_internal (User.password u)
    (Json.get data "password") ≠ Ok true ∧
  Json.get data "password" = JStr (User.password u).
Proof.
  unfold classify_login.
  destruct (Db.filter_by_username _ _) as [[[j v]|]|e0] eqn:Hq; try discriminate.
  apply filter_by_username_Ok in Hq. rewrite <- Hq.
  destruct (Werkzeug.check_password_hash _ _ _) as [[|]|e] eqn:Hc; try discriminate;
    destruct (Json.eq_str _ _) eqn:He; try discriminate;
    intros [= <- <-]; apply eq_str_true in He; rewrite Hc; done.
Qed.

(** C6, as the code has it.  When [login] takes the plaintext exit (the
    stored credential does not verify the submitted password as a hash and
    is equal to it), the answer is 200 whether or not the rewrite commits.
    If the commit fails the store is the one before.  If it goes through,
    the row holds a fresh hash of the password and nothing else changed;
    the same login replayed takes the hash exit, answers 200 and writes
    nothing; and a later login of that user can take the plaintext exit
    again only by submitting the stored hash itself as the password. *)
Theorem plaintext_migration (s : Store) (env : Env) (data : gmap string json)
    (i : nat) (u : User.t) :
  "$"%char ∉ list_ascii_of_string method →
  (∀ salt q, is_Some (hash_internal method salt q)) →
  classify' s data = PlaintextMatch i u →
  let out := login' s env data in
  out.1 = Json 200 (login_successful u) ∧
  (commit_ok env = false → out.2 = s) ∧
  (commit_ok env = true →
   ∃ pwhash,
     let u' := User.mk (User.username u) pwhash (User.role u) in
     Werkzeug.generate_password_hash method hash_internal (choice env)
       (Json.get data "password") = Ok pwhash ∧
     out.2 = mkStore (<[i := u']> (users s)) (categories s) (items s) ∧
     users out.2 !! i = Some u' ∧
     (∀ env', classify' out.2 data = HashVerified i u' ∧
              login' out.2 env' data = (Json 200 (login_successful u), out.2)) ∧
     (∀ data' j v, classify' out.2 data' = PlaintextMatch j v →
                   User.username v = User.username u →
                   Json.get data' "password" = JStr pwhash)).
Proof.
  intros Hm Ht Hcl. pose proof (classify_plaintext _ _ _ _ Hcl) as (Hf & Hnv & Hpw).
  destruct (user_by_username_Some _ _ _ _ Hf) as [Hi Hname].
  destruct (generate_total method hash_internal (choice env) (User.password u) Ht)
    as [pwhash Hgen].
  unfold login. rewrite Hcl. simpl. split; [done|].
  unfold upgrade_password. rewrite Hpw, Hgen. simpl.
  destruct (commit_cases env (mkStore
      (<[i := User.mk (User.username u) pwhash (User.role u)]> (users s))
      (categories s) (items s))) as [[Hok ->]|[Hko ->]].
  - split; [congruence|]. intros _. exists pwhash. simpl.
    set (u' := User.mk (User.username u) pwhash (User.role u)).
    set (s' := mkStore (<[i := u']> (users s)) (categories s) (items s)).
    pose proof (user_by_username_insert _ _ _ _ u' Hf eq_refl) as Hf'.
    pose proof (check_generated method hash_internal _ _ _ Hm Hgen) as Hck.
    assert (classify' s' data = HashVerified i u') as Hcl'.
    { unfold classify_login. cbn [users s']. rewrite Hname in Hf' |- *.
      cbn [Db.filter_by_username]. rewrite Hf'. cbn [User.password u'].
      by rewrite Hpw, Hck. }
    split_and!; try done.
    + apply list_lookup_insert_eq. by eapply lookup_lt_Some.
    + intros env'. split; [done|]. by rewrite Hcl'.
    + intros data' j v Hcl2 Hv.
      pose proof (classify_plaintext _ _ _ _ Hcl2) as (Hf2 & _ & Hpw2).
      destruct (user_by_username_Some _ _ _ _ Hf2) as [_ Hname2].
      simpl in Hf2. rewrite Hname2, Hv, <- Hname, Hf' in Hf2.
      injection Hf2 as <- <-. done.
  - split; [done|]. congruence.
Qed.

End Migration.

Lemma demo_method_no_dollar : "$"%char ∉ list_ascii_of_string Demo.method.
Proof. apply (bool_decide_eq_false_1 _). reflexivity. Qed.

Lemma demo_hash_total (salt q : string) :
  is_Some (Demo.hash_internal Demo.method salt q).
Proof. by eexists. Qed.

Lemma plaintext_migration_witness :
  let out := login Demo.method Demo.hash_internal Demo.legacy Demo.env_ok
               (Demo.creds "bob" "pw") in
  out.1 = Json 200 (login_successful (User.mk "bob" "pw" "buyer")) ∧
  users out.2 = [User.mk "bob" Demo.pw_hash "buyer"].
Proof.
  destruct (plaintext_migration Demo.method Demo.hash_internal Demo.legacy
              Demo.env_ok (Demo.creds "bob" "pw") 0%nat (User.mk "bob" "pw" "buyer"))
    as (H1 & _ & H2).
  - exact demo_method_no_dollar.
  - exact demo_hash_total.
  - reflexivity.
  - split; [exact H1|]. destruct (H2 eq_refl) as (pwhash & Hg & -> & _).
    vm_compute in Hg. injection Hg as <-. reflexivity.
Defined.

(** C6: the specification as worded fails on "never again".  After the rewrite has
    persisted, the same login replayed takes the hash exit, but a login
    that submits the stored hash as the password takes the plaintext exit
    once more and has the credential rewritten a second time. *)
Lemma plaintext_branch_triggers_again :
  let kdf := Demo.hash_internal in
  let s1 := (login Demo.method kdf Demo.legacy Demo.env_ok (Demo.creds "bob" "pw")).2 in
  let bob := User.mk "bob" Demo.pw_hash "buyer" in
  let out := login Demo.method kdf s1 Demo.env_ok (Demo.creds "bob" Demo.pw_hash) in
  classify_login kdf Demo.legacy (Demo.creds "bob" "pw")
    = PlaintextMatch 0 (User.mk "bob" "pw" "buyer") ∧
  users s1 = [bob] ∧
  classify_login kdf s1 (Demo.creds "bob" "pw") = HashVerified 0 bob ∧
  classify_login kdf s1 (Demo.creds "bob" Demo.pw_hash) = PlaintextMatch 0 bob ∧
  status_code out.1 = 200 ∧
  users out.2 ≠ users s1.
Proof. split_and!; try reflexivity. vm_compute. discriminate. Qed.

(** ** Administrators *)

Lemma filter_length_insert {A} (P : A → Prop) `{!∀ x, Decision (P x)}
    (l : list A) (i : nat) (x y : A) :
  l !! i = Some x → (P x ↔ P y) →
  List.length (filter P (<[i := y]> l)) = List.length (filter P l).
Proof.
  revert i. induction l as [|a l IH]; intros i Hi Hxy; [done|].
  destruct i as [|i]; simpl in *.
  - injection Hi as ->. rewrite !filter_cons.
    destruct (decide (P y)), (decide (P x)); simpl; tauto || done.
  - rewrite !filter_cons. destruct (decide (P a)); simpl; rewrite IH; done.
Qed.

Lemma first_admin_None (us : list User.t) :
  Db.first_admin us = None ↔ List.length (filter (λ u, User.role u = "admin") us) = 0%nat.
Proof.
  unfold Db.first_admin. rewrite list_find_None.
  induction us as [|u us IH]; [done|].
  rewrite Forall_cons, filter_cons. destruct (decide (User.role u = "admin")); simpl.
  - split; [tauto|discriminate].
  - rewrite IH. tauto.
Qed.

Lemma admin_count_add (s : Store) (u : User.t) :
  admin_count (mkStore (users s ++ [u])%list (categories s) (items s)) =
    (admin_count s + (if decide (User.role u = "admin") then 1 else 0))%nat.
Proof.
  unfold admin_count. simpl. rewrite filter_app, length_app, filter_cons.
  destruct (decide (User.role u = "admin")); done.
Qed.

Section AdminProperties.

Variable method : string.
Variable hash_internal : string → string → string → option string.

Abbreviation register' := (register method hash_internal).
Abbreviation bootstrap' := (bootstrap method hash_internal).

(** [register] either leaves the store alone or appends one row whose
    username was free and whose role is 'buyer', or 'admin' when no row had
    that role. *)
Lemma register_cases (s : Store) (env : Env) (data : gmap string json) :
  let out := register' s env data in
  out.2 = s ∨
  ∃ u, status_code out.1 = 201 ∧
       out.2 = mkStore (users s ++ [u])%list (categories s) (items s) ∧
       Db.user_by_username (users s) (JStr (User.username u)) = None ∧
       (User.role u = "buyer" ∨
        User.role u = "admin" ∧ Db.first_admin (users s) = None).
Proof.
  unfold register.
  destruct (negb _ || negb _ || negb (valid_role _)) eqn:Hv; [by left|].
  apply orb_false_iff in Hv as [Hv Hrole]. apply negb_false_iff in Hrole.
  apply orb_false_iff in Hv as [Hu _]. apply negb_false_iff in Hu.
  destruct (Db.filter_by_username _ _) as [[p|]|e] eqn:Hq; [by left| |by left].
  destruct (filter_by_username_truthy _ _ _ Hu Hq) as (n & Hn & Hfree).
  destruct (Json.eq_str "admin" _ && _) eqn:Ha; [by left|].
  destruct (Werkzeug.generate_password_hash _ _ _ _) as [hashed|e]; [|by left].
  simpl. rewrite Hn, bind_text_str. simpl.
  apply valid_role_cases in Hrole as Hr.
  assert (∃ r, Json.get_default data "role" (JStr "buyer") = JStr r ∧
               (r = "admin" ∨ r = "buyer")) as (r & Hr' & Hrr).
  { destruct Hr as [->| ->]; eexists; split; eauto. }
  rewrite Hr' in Ha |- *. rewrite bind_text_str. simpl.
  destruct (Db.add_user _ _) as [us|e] eqn:Hadd; [|by left]. simpl.
  destruct (commit_cases env (mkStore us (categories s) (items s)))
    as [[_ ->]|[_ ->]]; [|by left].
  right. unfold Db.add_user in Hadd.
  destruct (list_find _ _); [discriminate|]. injection Hadd as <-.
  exists (User.mk n hashed r). simpl. split_and!; try done.
  destruct Hrr as [-> | ->]; [right|by left]. split; [done|].
  change (Json.eq_str "admin" (JStr "admin")) with true in Ha.
  rewrite andb_true_l in Ha. apply bool_decide_eq_false in Ha.
  by apply eq_None_not_Some.
Qed.


(** What a request can do to the [user] table: nothing, rewrite the
    password of one row ([login]), or append one row ([register]). *)
Lemma handle_users (s : Store) (env : Env) (r : request) :
  let us' := users (handle method hash_internal s env r).2 in
  us' = users s
  ∨ (∃ j v h, users s !! j = Some v ∧
        us' = <[j := User.mk (User.username v) h (User.role v)]> (users s))
  ∨ (∃ u, us' = (users s ++ [u])%list ∧
        Db.user_by_username (users s) (JStr (User.username u)) = None ∧
        (User.role u = "buyer" ∨
         User.role u = "admin" ∧ Db.first_admin (users s) = None)).
Proof.
  destruct r as [data|data| |data|cid|data|iid data|iid]; simpl.
  - unfold login.
    destruct (classify_login _ _ _) as [|j v|j v| |e] eqn:Hcl; simpl; try by left.
    destruct (classify_plaintext _ _ _ _ _ Hcl) as (Hf & _).
    destruct (user_by_username_Some _ _ _ _ Hf) as [Hj _].
    unfold upgrade_password.
    destruct (Werkzeug.generate_password_hash _ _ _ _) as [hashed|e]; [|by left].
    simpl. destruct (commit_cases env (mkStore
        (<[j := User.mk (User.username v) hashed (User.role v)]> (users s))
        (categories s) (items s))) as [[_ ->]|[_ ->]]; [|by left].
    right. left. by exists j, v, hashed.
  - destruct (register_cases s env data) as [->|(u & _ & -> & Hfree & Hu)];
      [by left|].
    right. right. by exists u.
  - by left.
  - left. unfold create_category. destruct (negb _); [done|].
    destruct (Db.bind_text _ _) as [n|e]; [|done]. simpl.
    destruct (Db.add_category _ _ _) as [cs|e]; [|done]. simpl.
    by destruct (commit_cases env (mkStore (users s) cs (items s)))
      as [[_ ->]|[_ ->]].
  - left. unfold category_detail. destruct (categories s !! cid); [|done].
    by destruct (commit_cases env (mkStore (users s) (delete cid (categories s))
      (Db.detach cid <$> items s))) as [[_ ->]|[_ ->]].
  - left. unfold create_item. destruct (negb _); [done|].
    destruct (fromisoformat _ _) as [d|e]; [|done].
    destruct (Db.bind_text _ (Json.get data "name")) as [n|e]; [|done].
    destruct (Db.bind_text _ (Json.get data "department")) as [dep|e]; [|done].
    destruct (Db.bind_opt_text _ _) as [c|e]; [|done]. simpl.
    destruct (Db.add_item _ _ _) as [its|e]; [|done]. simpl.
    by destruct (commit_cases env (mkStore (users s) (categories s) its))
      as [[_ ->]|[_ ->]].
  - left. destruct (items s !! iid) as [item|] eqn:Hit.
    + destruct (put_cases s env iid data item Hit)
        as [(n & d & c & date & _ & _ & _ & _ & _ & ->)|[_ ->]]; done.
    + unfold item_detail. by rewrite Hit.
  - left. unfold item_detail. destruct (items s !! iid); [|done].
    by destruct (commit_cases env (mkStore (users s) (categories s)
      (delete iid (items s)))) as [[_ ->]|[_ ->]].
Qed.

(** Every view function keeps the number of administrators at one at most. *)
Lemma handle_preserves_admin_count (s : Store) (env : Env) (r : request) :
  (admin_count s ≤ 1)%nat →
  (admin_count (handle method hash_internal s env r).2 ≤ 1)%nat.
Proof.
  intros Hinv. unfold admin_count in *.
  destruct (handle_users s env r)
    as [->|[(j & v & h & Hj & ->)|(u & -> & _ & Hu)]].
  - done.
  - by rewrite (filter_length_insert _ _ _ v).
  - rewrite filter_app, length_app, filter_cons.
    destruct Hu as [Hu|[Hu Hnone]].
    + rewrite decide_False by (rewrite Hu; discriminate). simpl. lia.
    + rewrite decide_True by done. apply first_admin_None in Hnone. simpl. lia.
Qed.

(** No request removes or renames a user. *)
Lemma handle_keeps_username (s : Store) (env : Env) (r : request) (name : string) :
  (∃ u, u ∈ users s ∧ User.username u = name) →
  ∃ u, u ∈ users (handle method hash_internal s env r).2 ∧ User.username u = name.
Proof.
  intros (u & Hu & Hname).
  destruct (handle_users s env r)
    as [->|[(j & v & h & Hj & ->)|(x & -> & _)]].
  - by exists u.
  - apply list_elem_of_lookup in Hu as [k Hk].
    destruct (decide (k = j)) as [->|Hne].
    + assert (u = v) as -> by congruence.
      exists (User.mk (User.username v) h (User.role v)). split; [|done].
      apply list_elem_of_lookup. exists j. apply list_lookup_insert_eq.
      by eapply lookup_lt_Some.
    + exists u. split; [|done]. apply list_elem_of_lookup. exists k.
      by rewrite list_lookup_insert_ne.
  - exists u. split; [|done]. apply elem_of_app. by left.
Qed.

Lemma user_by_username_is_Some (us : list User.t) (name : string) :
  (∃ u, u ∈ us ∧ User.username u = name) →
  is_Some (Db.user_by_username us (JStr name)).
Proof.
  intros (u & Hu & Hname).
  destruct (Db.user_by_username us (JStr name)) as [p|] eqn:E; [by eexists|].
  unfold Db.user_by_username in E. apply list_find_None in E.
  rewrite Forall_forall in E. exfalso. apply (E u Hu).
  apply eq_str_true. by rewrite Hname.
Qed.

(** Once a user is named 'admin' the start-up block does nothing. *)
Lemma bootstrap_noop (s : Store) (env : Env) :
  (∃ u, u ∈ users s ∧ User.username u = "admin") → bootstrap' s env = s.
Proof.
  intros H. apply user_by_username_is_Some in H as [p Hp].
  unfold bootstrap. by rewrite Hp.
Qed.

(** The start-up block looks for the username 'admin' only: it adds an
    administrator next to any administrator registered under another
    name. *)
Lemma bootstrap_ignores_role (s : Store) (env : Env) :
  (∀ salt q, is_Some (hash_internal method salt q)) →
  Db.user_by_username (users s) (JStr "admin") = None →
  commit_ok env = true →
  admin_count (bootstrap' s env) = S (admin_count s).
Proof.
  intros Ht Hnone Hok. unfold bootstrap. rewrite Hnone.
  destruct (generate_total method hash_internal (choice env) "admin" Ht)
    as [hashed ->]. simpl.
  unfold Db.add_user. simpl.
  assert (list_find (λ u', User.username u' = "admin") (users s) = None) as ->.
  { apply list_find_None. unfold Db.user_by_username in Hnone.
    apply list_find_None in Hnone. eapply Forall_impl; [exact Hnone|].
    intros u Hu E. apply Hu. by apply eq_str_true; rewrite E. }
  simpl. unfold Db.commit. rewrite Hok. rewrite admin_count_add. simpl. lia.
Qed.

Lemma run_cons (s : Store) (e : event * Env) (trace : list (event * Env)) :
  run method hash_internal s (e :: trace) =
  run method hash_internal (step method hash_internal s e) trace.
Proof. reflexivity. Qed.

(** X16. Requests alone never lead from at most one administrator to two:
    whatever sequence of requests is served without a restart, a store with
    one administrator at most still has one at most. *)
Lemma requests_preserve_admin_count (trace : list (event * Env)) (s : Store) :
  Forall (λ e, e.1 ≠ Startup) trace →
  (admin_count s ≤ 1)%nat →
  (admin_count (run method hash_internal s trace) ≤ 1)%nat.
Proof.
  revert s. induction trace as [|[ev env] trace IH]; intros s Hall Hinv; [done|].
  apply Forall_cons in Hall as [Hev Hall]. rewrite run_cons. apply IH; [done|].
  unfold step. simpl in *. destruct ev as [|r]; [done|].
  by apply handle_preserves_admin_count.
Qed.

(** X17. When the first start on an empty database goes through, the user
    'admin' is there for good and there is one administrator at most in
    every state reached afterwards, restarts included. *)
Lemma first_start_keeps_one_admin (env0 : Env) (trace : list (event * Env)) :
  (∀ salt q, is_Some (hash_internal method salt q)) →
  commit_ok env0 = true →
  (admin_count (run method hash_internal (bootstrap' empty_store env0) trace) ≤ 1)%nat.
Proof.
  intros Ht Hok.
  assert (∀ s, (admin_count s ≤ 1)%nat →
               (∃ u, u ∈ users s ∧ User.username u = "admin") →
               (admin_count (run method hash_internal s trace) ≤ 1)%nat) as Hrun.
  { induction trace as [|[ev env] trace IH]; intros s Hinv Hadm; [done|].
    rewrite run_cons. unfold step. simpl. destruct ev as [|r].
    - rewrite bootstrap_noop by done. by apply IH.
    - apply IH.
      + by apply handle_preserves_admin_count.
      + by apply handle_keeps_username. }
  destruct (generate_total method hash_internal (choice env0) "admin" Ht)
    as [hashed Hg].
  assert (bootstrap' empty_store env0 =
          mkStore [User.mk "admin" hashed "admin"] ∅ ∅) as ->.
  { unfold bootstrap.
    change (Db.user_by_username (users empty_store) (JStr "admin"))
      with (@None (nat * User.t)).
    rewrite Hg. cbn [mbind result_bind]. unfold Db.add_user, Db.commit.
    by rewrite Hok. }
  apply Hrun.
  - unfold admin_count. cbn [users]. rewrite filter_cons.
    by rewrite decide_True.
  - eexists. split; [apply list_elem_of_here|]. done.
Qed.

End AdminProperties.

(** C2: the code breaks the invariant.  The start-up block fails once (its
    exception is printed and the server starts), an administrator registers
    under the name "bob", which [register] allows since there is none yet
    and refuses from then on; at the next start the block finds no user
    named 'admin' and inserts one: the state reached has two rows with the
    role 'admin'. *)
Theorem bootstrap_second_admin :
  let kdf := Demo.hash_internal in
  let bob := Request (Register (Demo.admin_creds "bob" "pw")) in
  let carol := Register (Demo.admin_creds "carol" "pw") in
  let s2 := run Demo.method kdf empty_store
              [(Startup, Demo.env_fail); (bob, Demo.env_ok)] in
  let s3 := run Demo.method kdf empty_store
              [(Startup, Demo.env_fail); (bob, Demo.env_ok); (Startup, Demo.env_ok)] in
  admin_count s2 = 1%nat ∧
  status_code (handle Demo.method kdf s2 Demo.env_ok carol).1 = 403 ∧
  (User.username <$> users s3) = ["bob"; "admin"] ∧
  (User.role <$> users s3) = ["admin"; "admin"] ∧
  admin_count s3 = 2%nat.
Proof. split_and!; reflexivity. Qed.

(** * Further properties of the code *)

(** ** Dates *)

Lemma digit_digit_char (n : Z) :
  Date.digit (Date.digit_char n) = Some (n `mod` 10).
Proof.
  unfold Date.digit, Date.digit_char.
  pose proof (Z.mod_pos_bound n 10 ltac:(lia)) as Hb.
  rewrite N_ascii_embedding by lia.
  rewrite Z2N.id by lia.
  replace (48 <=? 48 + n `mod` 10) with true by (symmetry; apply Z.leb_le; lia).
  replace (48 + n `mod` 10 <=? 57) with true by (symmetry; apply Z.leb_le; lia).
  simpl. f_equal. lia.
Qed.

Lemma number_pad2 (n : Z) :
  0 ≤ n < 100 →
  Date.number 0 [Date.digit_char (n / 10); Date.digit_char n] = Some n.
Proof.
  intros Hn. cbn [Date.number]. rewrite !digit_digit_char. f_equal.
  pose proof (Z.div_mod n 10 ltac:(lia)).
  rewrite (Z.mod_small (n / 10) 10); [lia|].
  split; [apply Z.div_pos; lia|apply Z.div_lt_upper_bound; lia].
Qed.

Lemma number_pad4 (n : Z) :
  0 ≤ n < 10000 →
  Date.number 0 [Date.digit_char (n / 1000); Date.digit_char (n / 100);
                 Date.digit_char (n / 10); Date.digit_char n] = Some n.
Proof.
  intros Hn. cbn [Date.number]. rewrite !digit_digit_char. f_equal.
  rewrite (Z.mod_small (n / 1000) 10)
    by (split; [apply Z.div_pos; lia|apply Z.div_lt_upper_bound; lia]).
  pose proof (Z.div_mod n 10 ltac:(lia)).
  pose proof (Z.div_mod (n / 10) 10 ltac:(lia)).
  pose proof (Z.div_mod (n / 100) 10 ltac:(lia)).
  replace (n / 100) with (n / 10 / 10) in *
    by (rewrite Z.div_div by lia; reflexivity).
  replace (n / 1000) with (n / 10 / 10 / 10) in *
    by (rewrite !Z.div_div by lia; reflexivity).
  lia.
Qed.

Lemma valid_bounds (d : Date.t) :
  Date.valid d = true →
  1 ≤ Date.year d ≤ 9999 ∧ 1 ≤ Date.month d ≤ 12 ∧ 1 ≤ Date.day d ≤ 31.
Proof.
  unfold Date.valid. rewrite !andb_true_iff, !Z.leb_le.
  intros (((((? & ?) & ?) & ?) & ?) & Hd).
  assert (Date.days_in_month (Date.year d) (Date.month d) ≤ 31);
    [|lia].
  unfold Date.days_in_month. repeat case_match; lia.
Qed.

Lemma shape_isoformat (d : Date.t) :
  Date.valid d = true → Date.shape (Date.isoformat d) = Some d.
Proof.
  intros Hv. destruct (valid_bounds d Hv) as (Hy & Hm & Hd).
  destruct d as [y m dd]. simpl in *.
  cbv [Date.isoformat Date.pad4 Date.pad2 String.append Date.shape
       list_ascii_of_string Date.year Date.month Date.day].
  rewrite number_pad4 by lia. by rewrite !number_pad2 by lia.
Qed.

(** The text [Item.to_dict] writes for a date is read back as that date,
    whatever else the runtime reads. *)
Lemma isoformat_parses (env : Env) (d : Date.t) :
  Date.valid d = true →
  fromisoformat env (JStr (Date.isoformat d)) = Ok d.
Proof.
  intros Hv. unfold fromisoformat, Date.fromisoformat_with.
  by rewrite shape_isoformat, Hv.
Qed.

Lemma fromisoformat_valid (env : Env) (v : json) (d : Date.t) :
  fromisoformat env v = Ok d → Date.valid d = true.
Proof.
  destruct v as [| | |str| |]; try discriminate. simpl.
  unfold Date.fromisoformat_with.
  destruct (Date.shape str) as [r|]; [|destruct (date_formats env str) as [r|]];
    try discriminate; destruct (Date.valid r) eqn:E; try discriminate;
    by intros [= <-].
Qed.

(** ** Items *)

Lemma to_dict_lookup (id : string) (item : Item.t) (k : string) :
  Item.to_dict id item !! k =
    match Item.dynamic_attributes item !! k with
    | Some v => Some v
    | None => Item.fixed_fields id item !! k
    end.
Proof.
  unfold Item.to_dict.
  destruct (Json.truthy (JObj (Item.dynamic_attributes item))) eqn:E.
  - rewrite lookup_union.
    destruct (Item.dynamic_attributes item !! k), (Item.fixed_fields id item !! k);
      done.
  - apply truthy_obj in E. rewrite E, lookup_empty. done.
Qed.

Lemma dynamic_attrs_wf (data : gmap string json) (k : string) :
  k ∈ core_fields → dynamic_attrs data !! k = None.
Proof. intros Hk. rewrite dynamic_attrs_lookup. by rewrite decide_True. Qed.

(** What [POST /api/items] does when it answers 201. *)
Lemma create_item_cases (s : Store) (env : Env) (data : gmap string json) :
  let out := create_item s env data in
  let new_id := "item-" ++ uuid_hex8 env in
  (∃ n dep d c,
      let item := Item.mk n dep d c (dynamic_attrs data) in
      Db.bind_text env (Json.get data "name") = Ok n ∧
      Db.bind_text env (Json.get data "department") = Ok dep ∧
      fromisoformat env (Json.get data "issuedDate") = Ok d ∧
      Db.bind_opt_text env (Json.get data "categoryId") = Ok c ∧
      items s !! new_id = None ∧
      commit_ok env = true ∧
      out = (Json 201 (JObj (Item.to_dict new_id item)),
             mkStore (users s) (categories s) (<[new_id := item]> (items s))))
  ∨ ((status_code out.1 = 400 ∨ status_code out.1 = 500) ∧ out.2 = s).
Proof.
  unfold create_item. destruct (negb _); [right; split; [by left|done]|].
  destruct (fromisoformat _ _) as [d|e] eqn:Hd; [|right; split; [by right|done]].
  destruct (Db.bind_text _ (Json.get data "name")) as [n|e] eqn:Hn;
    [|right; split; [by right|done]].
  destruct (Db.bind_text _ (Json.get data "department")) as [dep|e] eqn:Hdep;
    [|right; split; [by right|done]].
  destruct (Db.bind_opt_text _ _) as [c|e] eqn:Hc; [|right; split; [by right|done]].
  simpl. unfold Db.add_item.
  destruct (items s !! ("item-" ++ uuid_hex8 env)) eqn:Hfresh;
    [right; split; [by right|done]|].
  simpl.
  destruct (commit_cases env (mkStore (users s) (categories s)
      (<["item-" ++ uuid_hex8 env := Item.mk n dep d c (dynamic_attrs data)]> (items s))))
    as [[Hok ->]|[Hko ->]]; simpl; [|right; split; [by right|done]].
  left. by exists n, dep, d, c.
Qed.

(** What a request can do to the [item] table. *)
Lemma handle_items (method : string)
    (hash_internal : string → string → string → option string)
    (s : Store) (env : Env) (r : request) :
  let its' := items (handle method hash_internal s env r).2 in
  its' = items s
  ∨ (∃ id n dep d c data,
        its' = <[id := Item.mk n dep d c (dynamic_attrs data)]> (items s) ∧
        (Date.valid d = true ∨
         ∃ old, items s !! id = Some old ∧ d = Item.issued_date old))
  ∨ (∃ id, its' = delete id (items s))
  ∨ (∃ cid, its' = Db.detach cid <$> items s).
Proof.
  destruct r as [data|data| |data|cid|data|iid data|iid]; simpl.
  - left. unfold login.
    destruct (classify_login _ _ _) as [|j v|j v| |e]; simpl; try done.
    unfold upgrade_password.
    destruct (Werkzeug.generate_password_hash _ _ _ _) as [hashed|e]; [|done].
    simpl. by destruct (commit_cases env (mkStore
        (<[j := User.mk (User.username v) hashed (User.role v)]> (users s))
        (categories s) (items s))) as [[_ ->]|[_ ->]].
  - left. by destruct (register_cases method hash_internal s env data)
      as [->|(u & _ & -> & _)].
  - by left.
  - left. unfold create_category. destruct (negb _); [done|].
    destruct (Db.bind_text _ _) as [n|e]; [|done]. simpl.
    destruct (Db.add_category _ _ _) as [cs|e]; [|done]. simpl.
    by destruct (commit_cases env (mkStore (users s) cs (items s)))
      as [[_ ->]|[_ ->]].
  - unfold category_detail. destruct (categories s !! cid); [|by left].
    destruct (commit_cases env (mkStore (users s) (delete cid (categories s))
      (Db.detach cid <$> items s))) as [[_ ->]|[_ ->]]; [|by left].
    right. right. right. by exists cid.
  - destruct (create_item_cases s env data)
      as [(n & dep & d & c & _ & _ & Hd & _ & _ & _ & ->)|[_ ->]]; [|by left].
    right. left. exists ("item-" ++ uuid_hex8 env), n, dep, d, c, data.
    split; [done|]. left. by eapply fromisoformat_valid.
  - destruct (items s !! iid) as [item|] eqn:Hit.
    + destruct (put_cases s env iid data item Hit)
        as [(n & d & c & date & _ & _ & _ & Hdate & _ & ->)|[_ ->]]; [|by left].
      right. left. exists iid, n, d, date, c, data. split; [done|].
      unfold put_issued_date in Hdate. destruct (Json.truthy _).
      * left. by eapply fromisoformat_valid.
      * right. exists item. split; [done|]. congruence.
    + left. unfold item_detail. by rewrite Hit.
  - unfold item_detail. destruct (items s !! iid); [|by left].
    destruct (commit_cases env (mkStore (users s) (categories s)
      (delete iid (items s)))) as [[_ ->]|[_ ->]]; [|by left].
    right. right. left. by exists iid.
Qed.

Lemma detach_wf (cid : string) (it : Item.t) : item_wf it → item_wf (Db.detach cid it).
Proof.
  unfold item_wf. destruct (detach_fields cid it) as (_ & _ & -> & -> & _). done.
Qed.

Lemma bootstrap_items (method : string)
    (hash_internal : string → string → string → option string)
    (s : Store) (env : Env) :
  items (bootstrap method hash_internal s env) = items s ∧
  categories (bootstrap method hash_internal s env) = categories s.
Proof.
  unfold bootstrap. destruct (Db.user_by_username _ _); [done|].
  destruct (Werkzeug.generate_password_hash _ _ _ _) as [hashed|e]; [|done].
  simpl. destruct (Db.add_user _ _) as [us|e]; [|done]. simpl.
  by destruct (commit_cases env (mkStore us (categories s) (items s)))
    as [[_ ->]|[_ ->]].
Qed.

(** X2. Whatever requests and restarts a deployment goes through from an
    empty database, every item row holds a valid calendar date and no
    dynamic attribute named [name], [department], [issuedDate] or
    [categoryId]: [create_item] and the [PUT] branch filter these keys out,
    and nothing else writes the column. *)
Theorem reachable_items_wf (method : string)
    (hash_internal : string → string → string → option string)
    (trace : list (event * Env)) :
  items_wf (run method hash_internal empty_store trace).
Proof.
  assert (∀ s, items_wf s → items_wf (run method hash_internal s trace)) as Hrun.
  { induction trace as [|[ev env] trace IH]; intros s Hwf; [done|].
    rewrite run_cons. apply IH. unfold step. simpl. destruct ev as [|r].
    - intros id it. rewrite (proj1 (bootstrap_items _ _ s env)). apply Hwf.
    - intros id it.
      destruct (handle_items method hash_internal s env r)
        as [->|[(i & n & dep & d & c & data & -> & Hd)|[(i & ->)|(cid & ->)]]].
      + apply Hwf.
      + rewrite lookup_insert. case_decide; [|apply Hwf].
        intros [= <-]. split; simpl.
        * destruct Hd as [Hd|(old & Hold & ->)]; [done|]. by apply (Hwf i old).
        * intros k Hk. by apply dynamic_attrs_wf.
      + intros Hit. apply lookup_delete_Some in Hit as [_ Hit]. by eapply Hwf.
      + rewrite lookup_fmap. destruct (items s !! id) as [it0|] eqn:E; [|done].
        intros [= <-]. apply detach_wf. by eapply Hwf. }
  apply Hrun. intros id it. unfold empty_store. simpl. by rewrite lookup_empty.
Qed.

Lemma to_dict_core (id : string) (item : Item.t) :
  item_wf item →
  Item.to_dict id item !! "name" = Some (JStr (Item.name item)) ∧
  Item.to_dict id item !! "department" = Some (JStr (Item.department item)) ∧
  Item.to_dict id item !! "issuedDate" =
    Some (JStr (Date.isoformat (Item.issued_date item))) ∧
  Item.to_dict id item !! "categoryId" =
    Some (Json.of_option (Item.category_id item)).
Proof.
  intros [_ Hdyn]. rewrite !to_dict_lookup.
  rewrite !Hdyn by (unfold core_fields; set_solver).
  destruct (fixed_fields_lookup id item) as (_ & ? & ? & ? & ?). done.
Qed.

Lemma demo_pen_wf : item_wf Demo.pen.
Proof.
  split; [reflexivity|]. intros k Hk. unfold core_fields in Hk.
  set_unfold. destruct Hk as [->|[->|[->|[->|[]]]]]; reflexivity.
Qed.

(** X3. For an item row as the view functions write it, the serialised
    [name], [department], [issuedDate] and [categoryId] are the stored
    columns: no dynamic attribute can stand in for them.  Only [id] can be
    replaced in the output, by a dynamic attribute of that name, and the
    keys of the output are the five fixed ones and those of the dynamic
    attributes. *)
Theorem to_dict_core_fields (id : string) (item : Item.t) :
  item_wf item →
  Item.to_dict id item !! "name" = Some (JStr (Item.name item)) ∧
  Item.to_dict id item !! "department" = Some (JStr (Item.department item)) ∧
  Item.to_dict id item !! "issuedDate" =
    Some (JStr (Date.isoformat (Item.issued_date item))) ∧
  Item.to_dict id item !! "categoryId" =
    Some (Json.of_option (Item.category_id item)) ∧
  Item.to_dict id item !! "id" =
    Some (default (JStr id) (Item.dynamic_attributes item !! "id")) ∧
  dom (Item.to_dict id item) =
    dom (Item.dynamic_attributes item) ∪
    {[ "id"; "name"; "department"; "issuedDate"; "categoryId" ]}.
Proof.
  intros Hwf. destruct (to_dict_core id item Hwf) as (? & ? & ? & ?).
  split_and!; try done.
  - rewrite to_dict_lookup. destruct (Item.dynamic_attributes item !! "id"); [done|].
    apply fixed_fields_lookup.
  - apply set_eq. intros k. rewrite elem_of_union, !elem_of_dom, to_dict_lookup.
    destruct (Item.dynamic_attributes item !! k) as [v|] eqn:E.
    + split; [intros _; left|]; by eexists.
    + unfold Item.fixed_fields. rewrite <- elem_of_dom.
      rewrite dom_list_to_map_L. simpl. split.
      * intros Hk. right. set_solver.
      * intros [[? [=]]|Hk]. set_solver.
Qed.

Lemma to_dict_core_fields_witness :
  Item.to_dict "item-1" Demo.pen !! "name" = Some (JStr "Pen") ∧
  Item.to_dict "item-1" Demo.pen !! "id" = Some (JStr "item-1").
Proof.
  destruct (to_dict_core_fields "item-1" Demo.pen demo_pen_wf)
    as (H1 & _ & _ & _ & H2 & _).
  split; [exact H1|exact H2].
Defined.

Lemma isoformat_truthy (d : Date.t) : Json.truthy (JStr (Date.isoformat d)) = true.
Proof. reflexivity. Qed.

(** X4. Sending an item back as it was serialised is accepted and changes
    nothing a client can see: with the commit accepted, a [PUT] whose body
    is [to_dict] of the stored row answers 200 with that same body and
    leaves [name], [department], [issued_date] and [category_id] as they
    were.  The row does change in one place: [id] is not a core field, so
    it is stored among the dynamic attributes. *)
Theorem put_serialised_item (s : Store) (env : Env) (id : string) (item : Item.t) :
  items s !! id = Some item →
  item_wf item →
  commit_ok env = true →
  let data := Item.to_dict id item in
  let out := item_detail PUT s env id data in
  out.1 = Json 200 (JObj data) ∧
  ∃ item', items out.2 !! id = Some item' ∧
    Item.name item' = Item.name item ∧
    Item.department item' = Item.department item ∧
    Item.issued_date item' = Item.issued_date item ∧
    Item.category_id item' = Item.category_id item ∧
    (∀ k, Item.dynamic_attributes item' !! k =
          if decide (k = "id")
          then Some (default (JStr id) (Item.dynamic_attributes item !! "id"))
          else Item.dynamic_attributes item !! k).
Proof.
  intros Hit Hwf Hok data out.
  destruct (to_dict_core id item Hwf) as (Hn & Hd & Hi & Hc).
  change (Item.to_dict id item) with data in Hn, Hd, Hi, Hc.
  assert (∀ k, dynamic_attrs data !! k =
          if decide (k = "id")
          then Some (default (JStr id) (Item.dynamic_attributes item !! "id"))
          else Item.dynamic_attributes item !! k) as Hdyn.
  { intros k. rewrite dynamic_attrs_lookup. unfold data. rewrite to_dict_lookup.
    destruct (decide (k ∈ core_fields)) as [Hk|Hk].
    - rewrite decide_False by (intros ->; unfold core_fields in Hk; set_solver).
      symmetry. by apply Hwf.
    - destruct (decide (k = "id")) as [->|Hne].
      + destruct (Item.dynamic_attributes item !! "id"); [done|].
        apply fixed_fields_lookup.
      + destruct (Item.dynamic_attributes item !! k) eqn:E; [done|].
        apply not_elem_of_dom. unfold Item.fixed_fields.
        rewrite dom_list_to_map_L. simpl. unfold core_fields in Hk. set_solver. }
  set (item' := Item.mk (Item.name item) (Item.department item)
                  (Item.issued_date item) (Item.category_id item)
                  (dynamic_attrs data)).
  assert (Item.to_dict id item' = data) as Hbody.
  { apply map_eq. intros k. unfold data. rewrite !to_dict_lookup. simpl.
    fold data. rewrite Hdyn. destruct (decide (k = "id")) as [->|Hne].
    - destruct (Item.dynamic_attributes item !! "id"); [done|]. simpl.
      symmetry. apply fixed_fields_lookup.
    - destruct (Item.dynamic_attributes item !! k); done. }
  assert (out = (Json 200 (JObj data),
                 mkStore (users s) (categories s) (<[id := item']> (items s)))) as ->.
  { unfold out, item_detail. rewrite Hit. unfold put_issued_date, Json.get.
    fold data. rewrite Hi. simpl default. rewrite isoformat_truthy.
    rewrite isoformat_parses by apply Hwf.
    rewrite (get_default_present _ _ _ _ Hn), (get_default_present _ _ _ _ Hd),
      (get_default_present _ _ _ _ Hc).
    rewrite bind_opt_text_of_option, !bind_text_str.
    cbn [mbind result_bind]. unfold Db.commit. rewrite Hok.
    cbn [mbind result_bind mret result_ret]. fold item'. by rewrite Hbody. }
  split; [done|]. exists item'. simpl. rewrite lookup_insert_eq. done.
Qed.

Lemma put_serialised_item_witness :
  (item_detail PUT Demo.stock Demo.env_ok "item-1" (Item.to_dict "item-1" Demo.pen)).1
  = Json 200 (JObj (Item.to_dict "item-1" Demo.pen)).
Proof.
  apply (put_serialised_item Demo.stock Demo.env_ok "item-1" Demo.pen).
  - reflexivity.
  - exact demo_pen_wf.
  - reflexivity.
Defined.




(** X7. Creating an item and then deleting the id that came back leaves
    the store exactly as it was before the two requests. *)
Theorem create_then_delete_item (s : Store) (env env' : Env)
    (data data' : gmap string json) :
  let out := create_item s env data in
  status_code out.1 = 201 →
  commit_ok env' = true →
  item_detail DELETE out.2 env' ("item-" ++ uuid_hex8 env) data'
  = (Json 204 (message "Item deleted successfully"), s).
Proof.
  intros out Hst Hok.
  destruct (create_item_cases s env data)
    as [(n & dep & d & c & _ & _ & _ & _ & Hfresh & _ & Hout)|[Hfail _]].
  - unfold out. rewrite Hout. unfold item_detail. simpl.
    rewrite lookup_insert_eq. unfold Db.commit. rewrite Hok. simpl.
    rewrite delete_insert_id by done. by destruct s.
  - fold out in Hfail. rewrite Hst in Hfail. by destruct Hfail.
Qed.

Lemma create_then_delete_item_witness :
  let data : gmap string json :=
    <["name" := JStr "Pen"]> (<["department" := JStr "Sales"]>
      {[ "issuedDate" := JStr "2024-01-15" ]}) in
  item_detail DELETE (create_item Demo.stock Demo.env_ok data).2 Demo.env_ok
    "item-0a1b2c3d" ∅
  = (Json 204 (message "Item deleted successfully"), Demo.stock).
Proof.
  intros data.
  apply (create_then_delete_item Demo.stock Demo.env_ok Demo.env_ok data ∅);
    reflexivity.
Defined.

(** ** Registration, login and start-up *)

Lemma user_by_username_snoc (us : list User.t) (u : User.t) :
  Db.user_by_username us (JStr (User.username u)) = None →
  Db.user_by_username (us ++ [u]) (JStr (User.username u))
  = Some (List.length us, u).
Proof.
  unfold Db.user_by_username. intros H. rewrite list_find_app_r by done.
  simpl. rewrite decide_True by (simpl; apply String.eqb_refl). done.
Qed.

Section AccountProperties.

Variable method : string.
Variable hash_internal : string → string → string → option string.

Abbreviation register' := (register method hash_internal).
Abbreviation login' := (login method hash_internal).
Abbreviation bootstrap' := (bootstrap method hash_internal).

(** What [register] has done when it answers 201. *)
Lemma register_created (s : Store) (env : Env) (data : gmap string json) :
  status_code (register' s env data).1 = 201 →
  ∃ n p hashed r,
    let u := User.mk n hashed r in
    Json.get data "username" = JStr n ∧
    Json.get data "password" = JStr p ∧
    Json.get_default data "role" (JStr "buyer") = JStr r ∧
    Werkzeug.generate_password_hash method hash_internal (choice env) (JStr p)
      = Ok hashed ∧
    Db.user_by_username (users s) (JStr n) = None ∧
    commit_ok env = true ∧
    register' s env data =
      (Json 201 (JObj (list_to_map [("message", JStr "User created");
                                    ("user", user_info u)])),
       mkStore (users s ++ [u])%list (categories s) (items s)).
Proof.
  unfold register.
  destruct (negb _ || negb _ || negb (valid_role _)) eqn:Hv; [discriminate|].
  apply orb_false_iff in Hv as [Hv Hrole]. apply negb_false_iff in Hrole.
  apply orb_false_iff in Hv as [Hu _]. apply negb_false_iff in Hu.
  destruct (Db.filter_by_username _ _) as [[q|]|e] eqn:Hq;
    [discriminate| |discriminate].
  destruct (filter_by_username_truthy _ _ _ Hu Hq) as (n & Hn & Hfree).
  destruct (Json.eq_str "admin" _ && _); [discriminate|].
  destruct (Werkzeug.generate_password_hash _ _ _ _) as [hashed|e] eqn:Hg;
    [|discriminate].
  assert (∃ r, Json.get_default data "role" (JStr "buyer") = JStr r) as [r Hr].
  { destruct (valid_role_cases _ Hrole) as [->| ->]; by eexists. }
  rewrite Hn, Hr, !bind_text_str.
  simpl. destruct (Db.add_user _ _) as [us|e] eqn:Hadd; [|discriminate]. simpl.
  destruct (commit_cases env (mkStore us (categories s) (items s)))
    as [[Hok ->]|[_ ->]]; [|discriminate].
  intros _. unfold Db.add_user in Hadd.
  destruct (list_find _ _); [discriminate|]. injection Hadd as <-.
  assert (∃ p, Json.get data "password" = JStr p) as [p Hp].
  { unfold Werkzeug.generate_password_hash in Hg.
    destruct (Json.get data "password"); try discriminate. by eexists. }
  exists n, p, hashed, r. simpl. rewrite Hp in Hg. by split_and!.
Qed.


End AccountProperties.


Section StartupProperties.

Variable method : string.
Variable hash_internal : string → string → string → option string.

Abbreviation login' := (login method hash_internal).
Abbreviation register' := (register method hash_internal).
Abbreviation bootstrap' := (bootstrap method hash_internal).

(** What the start-up block can do to the store. *)
Lemma bootstrap_cases (s : Store) (env : Env) :
  bootstrap' s env = s
  ∨ ∃ hashed,
      Db.user_by_username (users s) (JStr "admin") = None ∧
      Werkzeug.generate_password_hash method hash_internal (choice env) (JStr "admin")
        = Ok hashed ∧
      bootstrap' s env =
        mkStore (users s ++ [User.mk "admin" hashed "admin"])%list
                (categories s) (items s).
Proof.
  unfold bootstrap.
  destruct (Db.user_by_username (users s) (JStr "admin")) eqn:Hu; [by left|].
  destruct (Werkzeug.generate_password_hash _ _ _ _) as [hashed|e]; [|by left].
  simpl. destruct (Db.add_user _ _) as [us|e] eqn:Hadd; [|by left]. simpl.
  destruct (commit_cases env (mkStore us (categories s) (items s)))
    as [[_ ->]|[_ ->]]; [|by left].
  right. exists hashed. unfold Db.add_user in Hadd.
  destruct (list_find _ _); [discriminate|]. by injection Hadd as <-.
Qed.

Lemma bootstrap_success (s : Store) (env : Env) :
  (∀ salt q, is_Some (hash_internal method salt q)) →
  Db.user_by_username (users s) (JStr "admin") = None →
  commit_ok env = true →
  ∃ hashed,
    Werkzeug.generate_password_hash method hash_internal (choice env) (JStr "admin")
      = Ok hashed ∧
    bootstrap' s env =
      mkStore (users s ++ [User.mk "admin" hashed "admin"])%list
              (categories s) (items s).
Proof.
  intros Ht Hnone Hok. unfold bootstrap. rewrite Hnone.
  destruct (generate_total method hash_internal (choice env) "admin" Ht)
    as [hashed Hg]. exists hashed. split; [done|]. rewrite Hg.
  cbn [mbind result_bind]. unfold Db.add_user. cbn [User.username].
  assert (list_find (λ u', User.username u' = "admin") (users s) = None) as ->.
  { apply list_find_None. unfold Db.user_by_username in Hnone.
    apply list_find_None in Hnone. eapply Forall_impl; [exact Hnone|].
    intros u Hu E. apply Hu. by apply eq_str_true; rewrite E. }
  cbn [mbind result_bind]. unfold Db.commit. by rewrite Hok.
Qed.

(** X9. The account the start-up block creates is open to the default
    password: when no user is named 'admin' and the commit goes through,
    the next [login] with username 'admin' and password 'admin' answers 200
    with the role 'admin', through the hash check, and writes nothing. *)
Theorem bootstrap_default_login (s : Store) (env env' : Env) :
  "$"%char ∉ list_ascii_of_string method →
  (∀ salt q, is_Some (hash_internal method salt q)) →
  Db.user_by_username (users s) (JStr "admin") = None →
  commit_ok env = true →
  let s' := bootstrap' s env in
  let data : gmap string json :=
    <["username" := JStr "admin"]> {[ "password" := JStr "admin" ]} in
  ∃ u, login' s' env' data = (Json 200 (login_successful u), s') ∧
       classify_login hash_internal s' data = HashVerified (List.length (users s)) u ∧
       User.username u = "admin" ∧ User.role u = "admin".
Proof.
  intros Hm Ht Hnone Hok.
  destruct (bootstrap_success s env Ht Hnone Hok) as (hashed & Hg & ->). simpl.
  set (u := User.mk "admin" hashed "admin").
  set (data := <["username" := JStr "admin"]> {[ "password" := JStr "admin" ]}
               : gmap string json).
  assert (classify_login hash_internal
            (mkStore (users s ++ [u])%list (categories s) (items s)) data
          = HashVerified (List.length (users s)) u) as Hcl.
  { unfold classify_login. cbn [users].
    change (Json.get data "username") with (JStr (User.username u)).
    change (Json.get data "password") with (JStr "admin").
    cbn [Db.filter_by_username].
    rewrite (user_by_username_snoc (users s) u Hnone).
    change (User.password u) with hashed.
    by rewrite (check_generated method hash_internal _ _ _ Hm Hg). }
  exists u. split_and!; try done. unfold login. by rewrite Hcl.
Qed.

(** X10. The start-up block is idempotent once it has gone through: after
    a start whose commit was accepted, any later start, in any environment,
    leaves the store as it is. *)
Theorem bootstrap_idempotent (s : Store) (env env' : Env) :
  (∀ salt q, is_Some (hash_internal method salt q)) →
  commit_ok env = true →
  bootstrap' (bootstrap' s env) env' = bootstrap' s env.
Proof.
  intros Ht Hok.
  destruct (Db.user_by_username (users s) (JStr "admin")) as [p|] eqn:Hu.
  - assert (bootstrap' s env = s) as -> by (unfold bootstrap; by rewrite Hu).
    unfold bootstrap. by rewrite Hu.
  - destruct (bootstrap_success s env Ht Hu Hok) as (hashed & _ & ->).
    apply bootstrap_noop. exists (User.mk "admin" hashed "admin"). split; [|done].
    apply elem_of_app. right. apply list_elem_of_here.
Qed.

(** X11. No two users ever share a username: [register] and the start-up
    block both look the name up before they insert, and [login] rewrites
    the password column only.  The property is kept by every request and
    every restart. *)
Theorem usernames_stay_unique (s : Store) (trace : list (event * Env)) :
  usernames_unique s →
  usernames_unique (run method hash_internal s trace).
Proof.
  assert (∀ us u, NoDup (User.username <$> us) →
                  Db.user_by_username us (JStr (User.username u)) = None →
                  NoDup (User.username <$> (us ++ [u])%list)) as Hsnoc.
  { intros us u Hnd Hfree. rewrite fmap_app. apply NoDup_app. split_and!.
    - done.
    - intros x Hx Hin. simpl in Hin. apply list_elem_of_singleton in Hin. subst x.
      apply list_elem_of_fmap in Hx as (v & Hv & Hin).
      unfold Db.user_by_username in Hfree. apply list_find_None in Hfree.
      rewrite Forall_forall in Hfree. apply (Hfree v Hin).
      apply eq_str_true. by rewrite Hv.
    - simpl. apply NoDup_singleton. }
  revert s. induction trace as [|[ev env] trace IH]; intros s Hnd; [done|].
  rewrite run_cons. apply IH. unfold usernames_unique, step in *. simpl.
  destruct ev as [|r].
  - destruct (bootstrap_cases s env) as [->|(hashed & Hfree & _ & ->)]; [done|].
    simpl. by apply Hsnoc.
  - destruct (handle_users method hash_internal s env r)
      as [->|[(j & v & h & Hj & ->)|(u & -> & Hfree & _)]].
    + done.
    + rewrite list_fmap_insert. simpl. rewrite list_insert_id; [done|].
      by rewrite list_lookup_fmap, Hj.
    + by apply Hsnoc.
Qed.

End StartupProperties.

Lemma bootstrap_default_login_witness :
  let kdf := Demo.hash_internal in
  let s' := bootstrap Demo.method kdf Demo.legacy Demo.env_ok in
  ∃ u, login Demo.method kdf s' Demo.env_ok (Demo.creds "admin" "admin")
       = (Json 200 (login_successful u), s') ∧ User.role u = "admin".
Proof.
  intros kdf s'.
  destruct (bootstrap_default_login Demo.method kdf Demo.legacy Demo.env_ok Demo.env_ok)
    as (u & H1 & _ & _ & H2).
  - exact demo_method_no_dollar.
  - exact demo_hash_total.
  - reflexivity.
  - reflexivity.
  - exists u. split; [exact H1|exact H2].
Defined.

Lemma bootstrap_idempotent_witness :
  let kdf := Demo.hash_internal in
  bootstrap Demo.method kdf (bootstrap Demo.method kdf Demo.legacy Demo.env_ok) Demo.env_ok
  = bootstrap Demo.method kdf Demo.legacy Demo.env_ok.
Proof.
  apply (bootstrap_idempotent Demo.method Demo.hash_internal Demo.legacy).
  - exact demo_hash_total.
  - reflexivity.
Defined.

Lemma demo_legacy_unique : usernames_unique Demo.legacy.
Proof. unfold usernames_unique. simpl. apply NoDup_singleton. Qed.

Lemma usernames_stay_unique_witness :
  usernames_unique
    (run Demo.method Demo.hash_internal Demo.legacy
       [(Startup, Demo.env_ok);
        (Request (Register (Demo.creds "bob" "other")), Demo.env_ok);
        (Request (Register (Demo.creds "alice" "pw")), Demo.env_ok)]).
Proof. apply usernames_stay_unique. exact demo_legacy_unique. Defined.

Section LoginFrame.

Variable method : string.
Variable hash_internal : string → string → string → option string.

Abbreviation login' := (login method hash_internal).
Abbreviation register' := (register method hash_internal).

Lemma generate_shape (choice : nat → nat) (p hashed : string) :
  Werkzeug.generate_password_hash method hash_internal choice (JStr p) = Ok hashed →
  ∃ h, hash_internal method (Werkzeug.gen_salt choice) p = Some h ∧
       hashed = method ++ "$" ++ Werkzeug.gen_salt choice ++ "$" ++ h.
Proof.
  unfold Werkzeug.generate_password_hash.
  destruct (hash_internal method (Werkzeug.gen_salt choice) p) as [h|]; [|discriminate].
  intros [= <-]. by exists h.
Qed.

(** X12. After a registration that answers 201, a login under that
    username with another password is refused with 401 and writes nothing,
    provided the key derivation tells the two passwords apart under the
    salt of the stored hash and the password tried is not the string of a
    stored credential. *)
Theorem register_then_wrong_password (s : Store) (env env' : Env)
    (data data' : gmap string json) (q : string) :
  "$"%char ∉ list_ascii_of_string method →
  status_code (register' s env data).1 = 201 →
  let s' := (register' s env data).2 in
  Json.get data' "username" = Json.get data "username" →
  Json.get data' "password" = JStr q →
  (∀ p, Json.get data "password" = JStr p →
        hash_internal method (Werkzeug.gen_salt (choice env)) q ≠
        hash_internal method (Werkzeug.gen_salt (choice env)) p) →
  (∀ u, u ∈ users s' → User.password u ≠ q) →
  login' s' env' data' = (Json 401 (message "Invalid username or password"), s').
Proof.
  intros Hm Hst.
  destruct (register_created method hash_internal s env data Hst)
    as (n & p & hashed & r & Hn & Hp & Hr & Hg & Hfree & _ & ->). simpl.
  intros Hn' Hq Hdiff Hnot.
  destruct (generate_shape _ _ _ Hg) as (h & Hh & ->).
  set (hashed := method ++ "$" ++ Werkzeug.gen_salt (choice env) ++ "$" ++ h) in *.
  set (u := User.mk n hashed r) in *.
  apply login_rejected. unfold classify_login. cbn [users].
  rewrite Hn', Hn, Hq. cbn [Db.filter_by_username].
  change (JStr n) with (JStr (User.username u)).
  rewrite (user_by_username_snoc (users s) u Hfree).
  change (User.password u) with hashed.
  assert (Json.eq_str hashed (JStr q) = false) as ->.
  { apply eq_str_false. intros [= E]. apply (Hnot u); [|done].
    apply elem_of_app. right. apply list_elem_of_here. }
  unfold Werkzeug.check_password_hash, hashed.
  rewrite (split_hash_generated method _ _ Hm).
  destruct (hash_internal method (Werkzeug.gen_salt (choice env)) q) as [hq|] eqn:E;
    [|done].
  destruct (String.eqb hq h) eqn:Eq; [|done].
  apply String.eqb_eq in Eq. subst hq. exfalso. apply (Hdiff p Hp). congruence.
Qed.

Lemma login_categories (s : Store) (env : Env) (data : gmap string json) :
  categories (login' s env data).2 = categories s.
Proof.
  unfold login.
  destruct (classify_login _ _ _) as [|j v|j v| |e]; simpl; try done.
  unfold upgrade_password.
  destruct (Werkzeug.generate_password_hash _ _ _ _) as [hashed|e]; [|done].
  simpl. by destruct (commit_cases env (mkStore
      (<[j := User.mk (User.username v) hashed (User.role v)]> (users s))
      (categories s) (items s))) as [[_ ->]|[_ ->]].
Qed.



End LoginFrame.

Lemma register_then_wrong_password_witness :
  let kdf := Demo.hash_internal in
  let s' := (register Demo.method kdf Demo.legacy Demo.env_ok
               (Demo.creds "alice" "s3cret")).2 in
  login Demo.method kdf s' Demo.env_ok (Demo.creds "alice" "guess")
  = (Json 401 (message "Invalid username or password"), s').
Proof.
  intros kdf s'.
  apply (register_then_wrong_password Demo.method kdf Demo.legacy Demo.env_ok
           Demo.env_ok (Demo.creds "alice" "s3cret") (Demo.creds "alice" "guess") "guess").
  - exact demo_method_no_dollar.
  - reflexivity.
  - reflexivity.
  - reflexivity.
  - intros p [= <-]. vm_compute. discriminate.
  - intros u Hu. vm_compute in Hu.
    apply elem_of_cons in Hu as [->|Hu]; [discriminate|].
    apply list_elem_of_singleton in Hu. subst u. discriminate.
Defined.

(** X14. [GET /api/admin-exists] writes nothing and answers 200 with
    [exists] true exactly when some row of [user] has the role 'admin',
    that is when the count of administrators is at least one. *)
Theorem admin_exists_answer (s : Store) :
  ∃ b, admin_exists s = (Json 200 (JObj {[ "exists" := JBool b ]}), s) ∧
       (b = true ↔ ∃ u, u ∈ users s ∧ User.role u = "admin") ∧
       (b = true ↔ (1 ≤ admin_count s)%nat).
Proof.
  exists (bool_decide (is_Some (Db.first_admin (users s)))). split; [done|].
  rewrite bool_decide_eq_true.
  assert (is_Some (Db.first_admin (users s)) ↔ (1 ≤ admin_count s)%nat) as Hc.
  { rewrite <- not_eq_None_Some, first_admin_None. unfold admin_count. lia. }
  split; [|done].
  unfold Db.first_admin. split.
  - intros [[i u] Hu]. apply list_find_Some in Hu as (Hi & Hr & _).
    exists u. split; [|done]. by eapply list_elem_of_lookup_2.
  - intros (u & Hu & Hr). apply not_eq_None_Some. intros Hn.
    apply list_find_None in Hn. rewrite Forall_forall in Hn. by apply (Hn u).
Qed.


Lemma requests_preserve_admin_count_witness :
  (admin_count
     (run Demo.method Demo.hash_internal Demo.legacy
        [(Request (Register (Demo.admin_creds "carol" "pw")), Demo.env_ok);
         (Request (Register (Demo.admin_creds "dave" "pw")), Demo.env_ok);
         (Request (Login (Demo.creds "bob" "pw")), Demo.env_ok)]) ≤ 1)%nat.
Proof.
  apply requests_preserve_admin_count.
  - repeat constructor; discriminate.
  - vm_compute. lia.
Defined.

Lemma first_start_keeps_one_admin_witness :
  (admin_count
     (run Demo.method Demo.hash_internal
        (bootstrap Demo.method Demo.hash_internal empty_store Demo.env_ok)
        [(Request (Register (Demo.admin_creds "bob" "pw")), Demo.env_ok);
         (Startup, Demo.env_ok);
         (Request (Register (Demo.creds "carol" "pw")), Demo.env_ok)]) ≤ 1)%nat.
Proof.
  apply first_start_keeps_one_admin.
  - exact demo_hash_total.
  - reflexivity.
Defined.

(** ** Categories *)

(** What [POST /api/categories] has done when it answers 201. *)
Lemma create_category_cases (s : Store) (env : Env) (data : gmap string json) :
  let out := create_category s env data in
  let new_id := "cat-" ++ uuid_hex8 env in
  (∃ n, Json.truthy (Json.get data "name") = true ∧
        Db.bind_text env (Json.get data "name") = Ok n ∧
        categories s !! new_id = None ∧
        (∀ j c, categories s !! j = Some c → Category.name c ≠ n) ∧
        commit_ok env = true ∧
        out = (Json 201 (JObj (Category.to_dict new_id (Category.mk n))),
               mkStore (users s) (<[new_id := Category.mk n]> (categories s)) (items s)))
  ∨ ((status_code out.1 = 400 ∨ status_code out.1 = 409) ∧ out.2 = s).
Proof.
  unfold create_category.
  destruct (negb (Json.truthy _)) eqn:Ht; [right; split; [by left|done]|].
  apply negb_false_iff in Ht.
  destruct (Db.bind_text _ _) as [n|e] eqn:Hn; [|right; split; [by right|done]].
  simpl. unfold Db.add_category.
  destruct (bool_decide (is_Some _) || bool_decide (map_Exists _ _)) eqn:Hdup;
    [right; split; [by right|done]|].
  simpl.
  destruct (commit_cases env (mkStore (users s)
      (<["cat-" ++ uuid_hex8 env := Category.mk n]> (categories s)) (items s)))
    as [[Hok ->]|[_ ->]]; [|right; split; [by right|done]].
  left. exists n.
  apply orb_false_iff in Hdup as [Hid Hname].
  apply bool_decide_eq_false in Hid, Hname.
  split_and!; try done.
  - by apply eq_None_not_Some.
  - intros j c Hj Hc. apply Hname. exists j, c. done.
Qed.

(** A name that is a number is stored as its digits, and the category is
    created. *)
Example create_category_number_name :
  let out := create_category Demo.stock Demo.env_ok {[ "name" := JNum 5 ]} in
  status_code out.1 = 201 ∧
  categories out.2 !! "cat-0a1b2c3d" = Some (Category.mk "5").
Proof. split; reflexivity. Qed.



(** X19. A category name that is already taken is refused: for a
    non-empty name that some category has, [POST /api/categories] answers
    409 and writes nothing, whatever the environment. *)
Theorem create_category_duplicate (s : Store) (env : Env) (data : gmap string json)
    (n : string) (j : string) (c : Category.t) :
  Json.get data "name" = JStr n →
  n ≠ "" →
  categories s !! j = Some c →
  Category.name c = n →
  create_category s env data
  = (Json 409 (message "Category name already exists or internal error."), s).
Proof.
  intros Hn Hne Hj Hc. unfold create_category. rewrite Hn.
  assert (Json.truthy (JStr n) = true) as ->.
  { simpl. destruct (String.eqb n "") eqn:E; [|done]. by apply String.eqb_eq in E. }
  simpl. unfold Db.add_category.
  assert (bool_decide (map_Exists (λ _ c', Category.name c' = Category.name (Category.mk n))
            (categories s)) = true) as ->.
  { apply bool_decide_eq_true. by exists j, c. }
  by rewrite orb_true_r.
Qed.

Lemma create_category_duplicate_witness :
  create_category Demo.stock Demo.env_ok {[ "name" := JStr "Writing" ]}
  = (Json 409 (message "Category name already exists or internal error."), Demo.stock).
Proof.
  apply (create_category_duplicate Demo.stock Demo.env_ok {[ "name" := JStr "Writing" ]}
           "Writing" "cat-1" (Category.mk "Writing")); try reflexivity.
  discriminate.
Defined.

(** X20. No two categories ever share a name: the property is kept by
    every request and every restart. *)
Theorem category_names_stay_unique (method : string)
    (hash_internal : string → string → string → option string)
    (s : Store) (trace : list (event * Env)) :
  category_names_unique s →
  category_names_unique (run method hash_internal s trace).
Proof.
  revert s. induction trace as [|[ev env] trace IH]; intros s Hu; [done|].
  rewrite run_cons. apply IH. unfold step. simpl. destruct ev as [|r].
  - unfold category_names_unique.
    by rewrite (proj2 (bootstrap_items method hash_internal s env)).
  - destruct r as [data|data| |data|cid|data|iid data|iid]; simpl.
    + unfold category_names_unique.
      by rewrite (login_categories method hash_internal s env data).
    + by destruct (register_cases method hash_internal s env data)
        as [->|(u & _ & -> & _)].
    + done.
    + destruct (create_category_cases s env data)
        as [(n & _ & _ & Hfresh & Hname & _ & ->)|[_ ->]]; [|done].
      intros i j c c'. simpl. rewrite !lookup_insert.
      repeat case_decide; subst; try done.
      * intros [= <-] Hj E. simpl in E. symmetry in E. by apply Hname in Hj.
      * intros Hi [= <-] E. simpl in E. by apply Hname in Hi.
      * apply Hu.
    + unfold category_detail. destruct (categories s !! cid); [|done].
      destruct (commit_cases env (mkStore (users s) (delete cid (categories s))
        (Db.detach cid <$> items s))) as [[_ ->]|[_ ->]]; [|done].
      intros i j c c'. simpl. rewrite !lookup_delete_Some.
      intros [_ Hi] [_ Hj]. by apply Hu.
    + by destruct (create_item_cases s env data)
        as [(n & dep & d & c & _ & _ & _ & _ & _ & _ & ->)|[_ ->]].
    + destruct (items s !! iid) as [item|] eqn:Hit.
      * by destruct (put_cases s env iid data item Hit)
          as [(n & d & c & date & _ & _ & _ & _ & _ & ->)|[_ ->]].
      * unfold item_detail. by rewrite Hit.
    + unfold item_detail. destruct (items s !! iid); [|done].
      by destruct (commit_cases env (mkStore (users s) (categories s)
        (delete iid (items s)))) as [[_ ->]|[_ ->]].
Qed.

Lemma demo_stock_names_unique : category_names_unique Demo.stock.
Proof.
  intros i j c c'. unfold Demo.stock. simpl.
  rewrite !lookup_singleton_Some. by intros [<- _] [<- _] _.
Qed.

Lemma category_names_stay_unique_witness :
  category_names_unique
    (run Demo.method Demo.hash_internal Demo.stock
       [(Request (CreateCategory {[ "name" := JStr "Paper" ]}), Demo.env_ok);
        (Request (CreateCategory {[ "name" := JStr "Writing" ]}), Demo.env_ok)]).
Proof. apply category_names_stay_unique. exact demo_stock_names_unique. Defined.

(** X21. Creating a category and then deleting the id that came back
    leaves the store exactly as it was, provided no item already pointed at
    that id. *)
Theorem create_then_delete_category (s : Store) (env env' : Env)
    (data : gmap string json) :
  let out := create_category s env data in
  status_code out.1 = 201 →
  commit_ok env' = true →
  (∀ id it, items s !! id = Some it →
            Item.category_id it ≠ Some ("cat-" ++ uuid_hex8 env)) →
  category_detail out.2 env' ("cat-" ++ uuid_hex8 env)
  = (Json 204 (message "Category deleted successfully"), s).
Proof.
  intros out Hst Hok Href.
  destruct (create_category_cases s env data)
    as [(n & _ & _ & Hfresh & _ & _ & Hout)|[Hfail _]].
  - unfold out. rewrite Hout. unfold category_detail. simpl.
    rewrite lookup_insert_eq. unfold Db.commit. rewrite Hok. simpl.
    rewrite delete_insert_id by done.
    assert (Db.detach ("cat-" ++ uuid_hex8 env) <$> items s = items s) as ->.
    { apply map_eq. intros id. rewrite lookup_fmap.
      destruct (items s !! id) as [it|] eqn:E; [|done]. simpl. f_equal.
      unfold Db.detach. by rewrite bool_decide_eq_false_2 by by eapply Href. }
    by destruct s.
  - fold out in Hfail. rewrite Hst in Hfail. by destruct Hfail.
Qed.

Lemma create_then_delete_category_witness :
  category_detail
    (create_category Demo.stock Demo.env_ok {[ "name" := JStr "Paper" ]}).2
    Demo.env_ok "cat-0a1b2c3d"
  = (Json 204 (message "Category deleted successfully"), Demo.stock).
Proof.
  apply (create_then_delete_category Demo.stock Demo.env_ok Demo.env_ok
           {[ "name" := JStr "Paper" ]}).
  - reflexivity.
  - reflexivity.
  - intros id it. unfold Demo.stock. simpl. rewrite lookup_insert.
    case_decide.
    + intros [= <-]. discriminate.
    + rewrite lookup_singleton_Some. intros [_ <-]. discriminate.
Defined.

(** ** When the writes go through *)

(** A name that is a number is stored as its digits, and the item is
    created. *)
Example create_item_number_name :
  let data : gmap string json :=
    <["name" := JNum 123]> (<["department" := JStr "Sales"]>
      {[ "issuedDate" := JStr "2024-01-15" ]}) in
  let out := create_item Demo.stock Demo.env_ok data in
  status_code out.1 = 201 ∧
  Item.name <$> items out.2 !! "item-0a1b2c3d" = Some "123".
Proof. split; reflexivity. Qed.

(** X22. [POST /api/items] answers 201 exactly when [name], [department]
    and [issuedDate] are truthy, [date.fromisoformat] reads a date from
    [issuedDate], the storage layer binds [name], [department] and
    [categoryId], the generated id is not taken and the database accepts
    the commit, its check of the category reference included; in
    particular a generated id that collides with a stored item is an error
    and overwrites nothing.  With string values the conditions on the
    request come down to: [name] and [department] non-empty, [issuedDate]
    of the shape YYYY-MM-DD spelling a calendar date, [categoryId] a
    string, null or absent. *)
Theorem create_item_201_iff (s : Store) (env : Env) (data : gmap string json) :
  let out := create_item s env data in
  (status_code out.1 = 201 ↔
     (Json.truthy (Json.get data "name") = true ∧
      Json.truthy (Json.get data "department") = true ∧
      Json.truthy (Json.get data "issuedDate") = true ∧
      ∃ n dep d c,
        Db.bind_text env (Json.get data "name") = Ok n ∧
        Db.bind_text env (Json.get data "department") = Ok dep ∧
        fromisoformat env (Json.get data "issuedDate") = Ok d ∧
        Db.bind_opt_text env (Json.get data "categoryId") = Ok c) ∧
     items s !! ("item-" ++ uuid_hex8 env) = None ∧
     commit_ok env = true)
  ∧ (status_code out.1 ≠ 201 → out.2 = s)
  ∧ (∀ n dep str d c,
       Json.get data "name" = JStr n → n ≠ "" →
       Json.get data "department" = JStr dep → dep ≠ "" →
       Json.get data "issuedDate" = JStr str → Date.shape str = Some d →
       Json.get data "categoryId" = Json.of_option c →
       (status_code out.1 = 201 ↔
          Date.valid d = true ∧
          items s !! ("item-" ++ uuid_hex8 env) = None ∧
          commit_ok env = true)).
Proof.
  assert (∀ str, Json.truthy (JStr str) = true ↔ str ≠ "") as Htr.
  { intros str. simpl. destruct (String.eqb str "") eqn:E.
    - apply String.eqb_eq in E. by split.
    - apply String.eqb_neq in E. by split. }
  assert (status_code (create_item s env data).1 = 201 ↔
     (Json.truthy (Json.get data "name") = true ∧
      Json.truthy (Json.get data "department") = true ∧
      Json.truthy (Json.get data "issuedDate") = true ∧
      ∃ n dep d c,
        Db.bind_text env (Json.get data "name") = Ok n ∧
        Db.bind_text env (Json.get data "department") = Ok dep ∧
        fromisoformat env (Json.get data "issuedDate") = Ok d ∧
        Db.bind_opt_text env (Json.get data "categoryId") = Ok c) ∧
     items s !! ("item-" ++ uuid_hex8 env) = None ∧
     commit_ok env = true) as Hiff.
  { split.
    - intros Hst. pose proof Hst as Hcopy. unfold create_item in Hcopy.
      destruct (negb (forallb _ _)) eqn:Hall; [discriminate|]. clear Hcopy.
      apply negb_false_iff in Hall. simpl in Hall.
      apply andb_true_iff in Hall as [Hn Hall].
      apply andb_true_iff in Hall as [Hdep Hi].
      rewrite andb_true_r in Hi.
      destruct (create_item_cases s env data)
        as [(n & dep & d & c & En & Edep & Ed & Ec & Hfresh & Hok & _)|[Hfail _]].
      + split_and!; try done. by exists n, dep, d, c.
      + rewrite Hst in Hfail. by destruct Hfail.
    - intros ((Hn & Hdep & Hi & n & dep & d & c & En & Edep & Ed & Ec) & Hfresh & Hok).
      unfold create_item. cbn [forallb]. rewrite Hn, Hdep, Hi, Ed, En, Edep, Ec.
      cbn [andb negb mbind result_bind]. unfold Db.add_item.
      rewrite Hfresh. cbn [mbind result_bind]. unfold Db.commit.
      by rewrite Hok. }
  split_and!.
  - exact Hiff.
  - intros Hst.
    destruct (create_item_cases s env data)
      as [(n & dep & d & c & _ & _ & _ & _ & _ & _ & Hout)|[_ H]]; [|done].
    rewrite Hout in Hst. done.
  - intros n dep str d c En Hn Edep Hdep Ei Hs Ec. simpl. rewrite Hiff.
    rewrite En, Edep, Ei, Ec. split.
    + intros ((_ & _ & _ & n0 & dep0 & d0 & c0 & _ & _ & Ed & _) & Hfresh & Hok).
      by destruct (fromisoformat_shape _ _ _ _ Hs Ed).
    + intros (Hv & Hfresh & Hok). split_and!; try done.
      * by apply Htr.
      * by apply Htr.
      * by eapply shape_truthy.
      * exists n, dep, d, c. split_and!; try done.
        -- unfold fromisoformat, Date.fromisoformat_with. by rewrite Hs, Hv.
        -- apply bind_opt_text_of_option.
Qed.

Section Accounts.

Variable method : string.
Variable hash_internal : string → string → string → option string.

Abbreviation register' := (register method hash_internal).

(** X23. [register] answers 201 exactly when the username and the
    password are non-empty strings, the role is 'admin' or 'buyer' (or
    absent), no user has the username, the role is not 'admin' while an
    administrator exists, and the commit is accepted; every other request
    leaves the store as it was. *)
Theorem register_201_iff (s : Store) (env : Env) (data : gmap string json) :
  (∀ salt q, is_Some (hash_internal method salt q)) →
  let out := register' s env data in
  (status_code out.1 = 201 ↔
     ∃ n p r,
       Json.get data "username" = JStr n ∧ n ≠ "" ∧
       Json.get data "password" = JStr p ∧ p ≠ "" ∧
       Json.get_default data "role" (JStr "buyer") = JStr r ∧
       (r = "buyer" ∨ r = "admin" ∧ Db.first_admin (users s) = None) ∧
       Db.user_by_username (users s) (JStr n) = None ∧
       commit_ok env = true)
  ∧ (status_code out.1 ≠ 201 → out.2 = s).
Proof.
  intros Ht.
  assert (∀ str, Json.truthy (JStr str) = true ↔ str ≠ "") as Htr.
  { intros str. simpl. destruct (String.eqb str "") eqn:E.
    - apply String.eqb_eq in E. by split.
    - apply String.eqb_neq in E. by split. }
  split; [split|].
  - intros Hst.
    destruct (register_created method hash_internal s env data Hst)
      as (n & p & hashed & r & Hn & Hp & Hr & _ & Hfree & Hok & Heq).
    exists n, p, r.
    assert (n ≠ "" ∧ p ≠ "") as [Hne Hpe].
    { pose proof Hst as Hc. unfold register in Hc. rewrite Hn, Hp in Hc.
      destruct (negb (Json.truthy (JStr n))) eqn:E1; [discriminate|].
      destruct (negb (Json.truthy (JStr p))) eqn:E2; [discriminate|].
      apply negb_false_iff in E1, E2. by apply Htr in E1, E2. }
    split_and!; try done.
    destruct (register_cases method hash_internal s env data)
      as [Hsame|(u & _ & Hout & _ & Hu)].
    + rewrite Heq in Hsame. simpl in Hsame.
      apply (f_equal (λ st, List.length (users st))) in Hsame. simpl in Hsame.
      rewrite length_app in Hsame. simpl in Hsame. lia.
    + rewrite Heq in Hout. simpl in Hout. injection Hout as Hus.
      apply app_inj_tail in Hus as [_ <-]. done.
  - intros (n & p & r & Hn & Hne & Hp & Hpe & Hr & Hrole & Hfree & Hok).
    unfold register. rewrite Hn, Hp, Hr.
    rewrite (proj2 (Htr n) Hne), (proj2 (Htr p) Hpe).
    cbn [negb orb Db.filter_by_username]. rewrite Hfree.
    assert (valid_role (JStr r) = true) as ->.
    { unfold valid_role. simpl. destruct Hrole as [->|[-> _]]; reflexivity. }
    cbn [negb].
    assert (Json.eq_str "admin" (JStr r) &&
            bool_decide (is_Some (Db.first_admin (users s))) = false) as ->.
    { destruct Hrole as [->|[-> Hnone]]; [reflexivity|].
      rewrite Hnone. rewrite bool_decide_eq_false_2 by (by intros [? ?]).
      reflexivity. }
    destruct (generate_total method hash_internal (choice env) p Ht) as [hashed ->].
    cbn [mbind result_bind Db.bind_text]. unfold Db.add_user. cbn [User.username].
    assert (list_find (λ u', User.username u' = n) (users s) = None) as ->.
    { apply list_find_None. unfold Db.user_by_username in Hfree.
      apply list_find_None in Hfree. eapply Forall_impl; [exact Hfree|].
      intros u Hu E. apply Hu. by apply eq_str_true; rewrite E. }
    cbn [mbind result_bind]. unfold Db.commit. by rewrite Hok.
  - intros Hst.
    destruct (register_cases method hash_internal s env data)
      as [H|(u & H & _)]; done.
Qed.

(** X24. No request and no restart removes a user, renames one or changes
    a role: the usernames and roles a store holds, in order, are still the
    first ones of the store any trace leads to. *)
Theorem users_never_removed (s : Store) (trace : list (event * Env)) :
  let ident := λ u, (User.username u, User.role u) in
  (ident <$> users s) `prefix_of`
  (ident <$> users (run method hash_internal s trace)).
Proof.
  intros ident. revert s.
  induction trace as [|[ev env] trace IH]; intros s; [done|].
  rewrite run_cons. etrans; [|apply IH].
  unfold step. simpl. destruct ev as [|r].
  - destruct (bootstrap_cases method hash_internal s env)
      as [->|(hashed & _ & _ & ->)]; [done|].
    simpl. rewrite fmap_app. by apply prefix_app_r.
  - destruct (handle_users method hash_internal s env r)
      as [->|[(j & v & h & Hj & ->)|(u & -> & _)]].
    + done.
    + rewrite list_fmap_insert. rewrite list_insert_id; [done|].
      by rewrite list_lookup_fmap, Hj.
    + rewrite fmap_app. by apply prefix_app_r.
Qed.

(** X25. From an empty database, whatever requests and restarts follow,
    every user has the role 'admin' or the role 'buyer'. *)
Theorem reachable_roles_valid (trace : list (event * Env)) (u : User.t) :
  u ∈ users (run method hash_internal empty_store trace) →
  User.role u = "admin" ∨ User.role u = "buyer".
Proof.
  assert (∀ s, Forall (λ u, User.role u = "admin" ∨ User.role u = "buyer") (users s) →
               Forall (λ u, User.role u = "admin" ∨ User.role u = "buyer")
                 (users (run method hash_internal s trace))) as Hrun.
  { induction trace as [|[ev env] trace IH]; intros s Hs; [done|].
    rewrite run_cons. apply IH. unfold step. simpl. destruct ev as [|r].
    - destruct (bootstrap_cases method hash_internal s env)
        as [->|(hashed & _ & _ & ->)]; [done|].
      simpl. apply Forall_app. split; [done|]. apply Forall_singleton. by left.
    - destruct (handle_users method hash_internal s env r)
        as [->|[(j & v & h & Hj & ->)|(x & -> & _ & Hx)]].
      + done.
      + apply Forall_insert; [done|]. simpl.
        rewrite Forall_forall in Hs. apply Hs.
        by eapply list_elem_of_lookup_2.
      + apply Forall_app. split; [done|]. apply Forall_singleton.
        destruct Hx as [?|[? _]]; auto. }
  intros Hu. specialize (Hrun empty_store (Forall_nil_2 _)).
  rewrite Forall_forall in Hrun. by apply Hrun.
Qed.

End Accounts.

Lemma register_201_iff_witness :
  status_code (register Demo.method Demo.hash_internal Demo.legacy Demo.env_ok
                 (Demo.admin_creds "carol" "pw")).1 = 201.
Proof.
  apply (register_201_iff Demo.method Demo.hash_internal Demo.legacy Demo.env_ok
           (Demo.admin_creds "carol" "pw") demo_hash_total).
  exists "carol", "pw", "admin". split_and!; try reflexivity; try discriminate.
  right. split; reflexivity.
Defined.

Lemma reachable_roles_valid_witness :
  let bob := User.mk "bob" Demo.pw_hash "buyer" in
  User.role bob = "admin" ∨ User.role bob = "buyer".
Proof.
  intros bob.
  apply (reachable_roles_valid Demo.method Demo.hash_internal
           [(Startup, Demo.env_ok);
            (Request (Register (Demo.creds "bob" "pw")), Demo.env_ok)] bob).
  apply list_elem_of_lookup. exists 1%nat. reflexivity.
Defined.
